(** * Trivia API: a shallow embedding of [backend/flaskr/__init__.py]

    The request handlers of the Flask application are embedded as functions
    over an explicit model of the storage session.  Python values that reach
    a handler through a JSON body keep their dynamic shape ([json]); the
    handlers are written in a small state-and-exception monad so that the
    [try] / [except] / [finally] structure of the source is kept. *)

From Stdlib Require Import ZArith Lia Ascii String.
From stdpp Require Import base option list strings gmap pretty.

#[local] Set Warnings "-register-all".
#[local] Open Scope Z_scope.

(** ** Python values *)

(** A value decoded from a JSON document ([request.get_json()]): [None],
    a [bool], an [int], a [str], a [list] or a [dict] with string keys.
    Numbers with a fractional part are not covered. *)
Inductive json :=
| JNull
| JBool (b : bool)
| JInt (n : Z)
| JStr (s : string)
| JList (l : list json)
| JObj (m : gmap string json).

(** Python truthiness ([bool(v)], as used by [not v] and [and]). *)
Definition truthy (v : json) : bool :=
  match v with
  | JNull => false
  | JBool b => b
  | JInt n => negb (n =? 0)
  | JStr s => negb (String.length s =? 0)%nat
  | JList l => negb (length l =? 0)%nat
  | JObj m => negb (size m =? 0)%nat
  end.

(** [v == k] for an integer literal [k]: [bool] is a subclass of [int]. *)
Definition py_eq_int (v : json) (k : Z) : bool :=
  match v with
  | JInt n => n =? k
  | JBool b => (if b then 1 else 0) =? k
  | _ => false
  end.

(** Exceptions a handler can see. [HTTPException c] is what [abort(c)]
    raises; [StorageError] stands for any exception of the ORM or of the
    database driver. *)
Inductive exn :=
| HTTPException (code : Z)
| AttributeError
| KeyError
| TypeError
| IndexError
| StorageError.

Inductive outcome (A : Type) :=
| Return (a : A)
| Raise (e : exn).
Arguments Return {A} a.
Arguments Raise {A} e.

(** [body.get(key, None)]: only a [dict] has the method. *)
Definition dict_get (body : json) (key : string) : outcome json :=
  match body with
  | JObj m => Return (default JNull (m !! key))
  | _ => Raise AttributeError
  end.

(** [v[key]] for a string key. *)
Definition getitem (v : json) (key : string) : outcome json :=
  match v with
  | JObj m => match m !! key with Some x => Return x | None => Raise KeyError end
  | _ => Raise TypeError
  end.

(** *** [int(s)] on a query-string value *)

(** The whitespace that [int] skips around an ASCII text: tab to carriage
    return, and the space. *)
Definition is_space (c : ascii) : bool :=
  let n := nat_of_ascii c in
  ((9 <=? n) && (n <=? 13) || (n =? 32))%nat.

Definition digit_value (c : ascii) : option Z :=
  let n := nat_of_ascii c in
  if ((48 <=? n) && (n <=? 57))%nat then Some (Z.of_nat n - 48) else None.

Fixpoint lstrip (s : list ascii) : list ascii :=
  match s with
  | c :: r => if is_space c then lstrip r else s
  | [] => []
  end.

Definition strip (s : list ascii) : list ascii :=
  rev (lstrip (rev (lstrip s))).

(** Digits with single underscores between them; [prev] tells whether the
    previous character was a digit. Returns the value and the digit count. *)
Fixpoint scan_digits (s : list ascii) (prev : bool) (acc : Z) (count : nat)
  : option (Z * nat) :=
  match s with
  | [] => if prev then Some (acc, count) else None
  | c :: r =>
      if Ascii.eqb c "_"%char then
        if prev then scan_digits r false acc count else None
      else
        match digit_value c with
        | Some d => scan_digits r true (10 * acc + d) (S count)
        | None => None
        end
  end.

(** [sys.int_info.default_max_str_digits] *)
Definition max_str_digits : nat := 4300.

(** [int(s)] for a text of ASCII characters; [None] stands for
    [ValueError]. *)
Definition ascii_int (s : string) : option Z :=
  let body := strip (list_ascii_of_string s) in
  let '(neg, ds) :=
    match body with
    | c :: r => if Ascii.eqb c "-"%char then (true, r)
                else if Ascii.eqb c "+"%char then (false, r) else (false, body)
    | [] => (false, [])
    end in
  match scan_digits ds false 0 0 with
  | Some (n, count) =>
      if (max_str_digits <? count)%nat then None
      else Some (if neg then - n else n)
  | None => None
  end.

Definition is_ascii (s : string) : bool :=
  forallb (λ c, (nat_of_ascii c <? 128)%nat) (list_ascii_of_string s).

(** *** List slicing [l[start:stop]] *)

Definition slice_index (len i : Z) : Z :=
  if i <? 0 then Z.max (i + len) 0 else Z.min i len.

Definition py_slice {A} (l : list A) (start stop : Z) : list A :=
  let len := Z.of_nat (length l) in
  let lo := slice_index len start in
  let hi := slice_index len stop in
  take (Z.to_nat (hi - lo)) (drop (Z.to_nat lo) l).

(** ** Data model *)

Module Question.
(** Modelled from the spec: the [Question] class of [models.py], which is
    not among the sources. A question has a generated unique id, a question
    text, an answer text, the id of its category and an integer
    difficulty. *)
Record t := mk {
  id : Z;
  question : string;
  answer : string;
  category : Z;
  difficulty : Z
}.

(** Modelled from the spec: [Question.format()] gives the flat record of
    the five fields. *)
Definition format (q : t) : json :=
  JObj (list_to_map
          [("id", JInt (id q)); ("question", JStr (question q));
           ("answer", JStr (answer q)); ("category", JInt (category q));
           ("difficulty", JInt (difficulty q))]).
End Question.

Module Category.
(** Modelled from the spec: the [Category] class of [models.py]; a category
    has an id and a display label. *)
Record t := mk { id : Z; type : string }.
End Category.

(** Modelled from the spec: the tables behind [db] ([models.py] and the
    database are not among the sources). [questions] and [categories] are
    the committed rows in storage order, [next_id] is the generator of
    question ids, and [issued] is the history of every id a question has
    been created with; a deleted question leaves its id there. *)
Record store := mk_store {
  questions : list Question.t;
  categories : list Category.t;
  next_id : Z;
  issued : gset Z
}.

(** The generator is ahead of every id it has handed out, and every stored
    question carries an issued id. *)
Definition store_wf (s : store) : Prop :=
  (∀ q, q ∈ questions s → Question.id q ∈ issued s) ∧
  (∀ i, i ∈ issued s → i < next_id s).

(** ** The storage session *)

(** An uncommitted change: [Question(...)] handed to [db.session.add], or a
    row handed to [db.session.delete]. The constructor arguments of a new
    question are whatever the request body held. *)
Inductive change :=
| Insert (question answer category difficulty : json)
| Remove (question_id : Z).

Inductive session_event := EvCommit | EvRollback | EvClose.

Record world := mk_world {
  db : store;
  pending : list change;
  active : bool;
  trace : list session_event
}.

(** The storage calls of the handlers. Whether such a call raises (a lost
    connection, a constraint of the database, ...) is not decided by the
    handler. *)
Inductive db_call :=
| QueryGet | QueryFilter | SessionAdd | SessionDelete | SessionCommit
| QuestionAll | CategoryAll | CategoryGet.

(** What the handlers leave to the platform they run on:
    - [raises] tells which storage calls raise;
    - [int_non_ascii] is [int(s)] for a text that holds a character beyond
      ASCII (digits and spaces of other scripts are Unicode's business);
    - [orm_not_in] is what [~Question.id.in_(v)] selects, or that it is
      rejected, for a value [v] that is not a list of integers: [None] or
      a text among the elements, a dict, a text, ...;
    - [orm_category] is the same for [filter_by(category=v)] and a value
      that is neither an integer nor [None]. *)
Record env := mk_env {
  raises :> db_call → bool;
  int_non_ascii : string → option Z;
  orm_not_in : json → outcome (Z → bool);
  orm_category : json → outcome (Z → bool)
}.

(** An environment for the examples: no storage call raises; nothing but
    ASCII integers and lists of integers is accepted. *)
Definition healthy : env :=
  mk_env (λ _, false) (λ _, None)
         (λ _, Raise StorageError) (λ _, Raise StorageError).

(** [int(s)]; [None] stands for [ValueError]. *)
Definition py_int (e : env) (s : string) : option Z :=
  if is_ascii s then ascii_int s else int_non_ascii e s.

(** ** The handler monad: state of the session, and exceptions *)

Definition M (A : Type) : Type := world → outcome A * world.

#[global] Instance M_ret : MRet M := λ A a w, (Return a, w).

#[global] Instance M_bind : MBind M := λ A B f m w,
  match m w with
  | (Return a, w') => f a w'
  | (Raise e, w') => (Raise e, w')
  end.

Definition raise {A} (e : exn) : M A := λ w, (Raise e, w).

Definition lift {A} (o : outcome A) : M A := λ w, (o, w).

(** [abort(code)] *)
Definition abort {A} (code : Z) : M A := raise (HTTPException code).

(** [try: body except Exception as e: handler] *)
Definition try_except {A} (body : M A) (handler : exn → M A) : M A := λ w,
  match body w with
  | (Raise e, w') => handler e w'
  | r => r
  end.

(** [try: body finally: cleanup] *)
Definition try_finally {A} (body : M A) (cleanup : M unit) : M A := λ w,
  let '(r, w1) := body w in
  match cleanup w1 with
  | (Return _, w2) => (r, w2)
  | (Raise e, w2) => (Raise e, w2)
  end.

Definition touch (w : world) : world :=
  mk_world (db w) (pending w) true (trace w).

(** [Question.query.all()] *)
Definition Question_query_all (e : env) : M (list Question.t) := λ w,
  if e QuestionAll then (Raise StorageError, touch w)
  else (Return (questions (db w)), touch w).

(** [Category.query.all()] *)
Definition Category_query_all (e : env) : M (list Category.t) := λ w,
  if e CategoryAll then (Raise StorageError, touch w)
  else (Return (categories (db w)), touch w).

(** [Question.query.get(question_id)] *)
Definition Question_query_get (e : env) (question_id : Z) : M (option Question.t) := λ w,
  if e QueryGet then (Raise StorageError, touch w)
  else (Return (head (filter (λ q, Question.id q = question_id) (questions (db w)))),
        touch w).

(** [db.session.delete(question)] *)
Definition session_delete (e : env) (q : Question.t) : M unit := λ w,
  if e SessionDelete then (Raise StorageError, touch w)
  else (Return (),
        mk_world (db w) (pending w ++ [Remove (Question.id q)]) true (trace w)).

(** [db.session.add(Question(question=.., answer=.., category=.., difficulty=..))] *)
Definition session_add (e : env) (question answer category difficulty : json) : M unit := λ w,
  if e SessionAdd then (Raise StorageError, touch w)
  else (Return (),
        mk_world (db w) (pending w ++ [Insert question answer category difficulty])
                 true (trace w)).

(** Modelled from the spec: the columns are typed, texts for the question
    and the answer, integers for the category and the difficulty. The
    storage layer takes a text for a text column; [None] is its refusal. *)
Definition as_text (v : json) : option string :=
  match v with JStr s => Some s | _ => None end.

(** Modelled from the spec: an integer for an integer column. *)
Definition as_integer (v : json) : option Z :=
  match v with JInt n => Some n | _ => None end.

(** One change applied to the rows; [None] when the storage layer rejects
    it. The second component collects the rows inserted so far. *)
Definition apply_change (c : change) (acc : store * list Question.t)
  : option (store * list Question.t) :=
  let '(s, created) := acc in
  match c with
  | Remove qid =>
      Some (mk_store (filter (λ q, Question.id q ≠ qid) (questions s))
                     (categories s) (next_id s) (issued s), created)
  | Insert q a c d =>
      q' ← as_text q; a' ← as_text a; c' ← as_integer c; d' ← as_integer d;
      let row := Question.mk (next_id s) q' a' c' d' in
      Some (mk_store (questions s ++ [row]) (categories s)
                     (next_id s + 1) ({[next_id s]} ∪ issued s),
            created ++ [row])
  end.

Fixpoint flush (cs : list change) (acc : store * list Question.t)
  : option (store * list Question.t) :=
  match cs with
  | [] => Some acc
  | c :: cs' => acc' ← apply_change c acc; flush cs' acc'
  end.

(** [db.session.commit()]: all pending changes reach the store, or none
    does. Returns the rows behind the objects that were added, as the
    handler reads them back after the commit. *)
Definition session_commit (e : env) : M (list Question.t) := λ w,
  if e SessionCommit then (Raise StorageError, touch w)
  else match flush (pending w) (db w, []) with
       | Some (s', created) =>
           (Return created, mk_world s' [] true (trace w ++ [EvCommit]))
       | None => (Raise StorageError, touch w)
       end.

(** [db.session.rollback()] *)
Definition session_rollback : M unit := λ w,
  (Return (), mk_world (db w) [] (active w) (trace w ++ [EvRollback])).

(** [db.session.close()] *)
Definition session_close : M unit := λ w,
  (Return (), mk_world (db w) [] false (trace w ++ [EvClose])).

(** ** Responses *)

(** The documents the handlers hand to [jsonify], one constructor for each
    shape; [None] is JSON [null]. *)
Inductive body :=
| QuestionsBody (success : bool) (questions : list json) (total_questions : nat)
                (current_category : option string) (categories : gmap Z string)
| DeletedBody (success : bool) (deleted : Z)
| CreatedBody (success : bool) (created : Z) (question answer : string)
              (category difficulty : Z)
| SearchBody (success : bool) (questions : list json) (total_questions : nat)
             (current_category : option string)
| QuizBody (success : bool) (question : option json)
| ErrorBody (success : bool) (error : Z) (message : string)
| DefaultErrorPage.

Record response := mk_response { status_code : Z; data : body }.

(** What a view function returns: a document, with or without a status. *)
Definition view_result : Type := body * option Z.

(** Flask's [make_response]: the status defaults to 200. *)
Definition make_response (rv : view_result) : response :=
  mk_response (default 200 rv.2) rv.1.

Definition success_of (r : response) : option bool :=
  match data r with
  | QuestionsBody b _ _ _ _ | DeletedBody b _ | CreatedBody b _ _ _ _ _
  | SearchBody b _ _ _ | QuizBody b _ | ErrorBody b _ _ => Some b
  | DefaultErrorPage => None
  end.

(** *** Error handlers *)

(** [@app.errorhandler(400)] (the source names this function [not_found]
    as well) *)
Definition not_found_400 (error : exn) : view_result :=
  (ErrorBody false 400 "bad request!", Some 400).

(** [@app.errorhandler(404)] *)
Definition not_found (error : exn) : view_result :=
  (ErrorBody false 404 "resource not found!", Some 404).

(** [@app.errorhandler(405)] *)
Definition not_allowed (error : exn) : view_result :=
  (ErrorBody false 405 "method not allowed!", None).

(** [@app.errorhandler(422)] *)
Definition unprocessable (error : exn) : view_result :=
  (ErrorBody false 422 "unprocessable!", Some 422).

(** [@app.errorhandler(500)] *)
Definition internal_server_error (error : exn) : view_result :=
  (ErrorBody false 500 "internal server error!", Some 500).

(** The registry filled by the [errorhandler] decorators. *)
Definition error_handler (code : Z) : option (exn → view_result) :=
  if code =? 400 then Some not_found_400
  else if code =? 404 then Some not_found
  else if code =? 405 then Some not_allowed
  else if code =? 422 then Some unprocessable
  else if code =? 500 then Some internal_server_error
  else None.

(** Flask's dispatch of an exception that leaves a view: an HTTP exception
    goes to the handler registered for its code, any other exception is
    turned into the 500 one. *)
Definition handle_exception (e : exn) : response :=
  match e with
  | HTTPException code =>
      match error_handler code with
      | Some handler => make_response (handler e)
      | None => mk_response code DefaultErrorPage
      end
  | _ => make_response (internal_server_error (HTTPException 500))
  end.

(** A request served from the committed store [s], with a session of its
    own: the response, and the session and store it leaves behind. *)
Definition serve (view : M view_result) (s : store) : response * world :=
  match view (mk_world s [] false []) with
  | (Return rv, w) => (make_response rv, w)
  | (Raise e, w) => (handle_exception e, w)
  end.

(** ** GET /questions *)

Definition QUESTIONS_PER_PAGE : Z := 10.

(** [request.args[key]]: the first value given for the key. *)
Definition args_get (args : list (string * string)) (key : string) : option string :=
  snd <$> head (filter (λ kv, kv.1 = key) args).

(** [request.args.get(key, default, type=int)]: the value converted; the
    default when the key is absent or the conversion raises [ValueError]. *)
Definition args_get_int (e : env) (args : list (string * string)) (key : string)
    (dflt : Z) : Z :=
  match args_get args key with
  | None => dflt
  | Some v => default dflt (py_int e v)
  end.

Definition paginate_questions (e : env) (args : list (string * string))
    (selection : list Question.t) : list json :=
  let page := args_get_int e args "page" 1 in
  let start := (page - 1) * QUESTIONS_PER_PAGE in
  let end_ := start + QUESTIONS_PER_PAGE in
  let questions := Question.format <$> selection in
  let paginated_questions := py_slice questions start end_ in
  paginated_questions.

(** [{category.id: category.type for category in categories}]: a later
    entry with the same key replaces an earlier one. *)
Definition categories_dict (categories : list Category.t) : gmap Z string :=
  foldl (λ m c, <[Category.id c := Category.type c]> m) ∅ categories.

(** The two queries are outside of any [try]: what they raise leaves the
    view. *)
Definition get_questions (e : env) (args : list (string * string)) : M view_result :=
  selection ← Question_query_all e;
  let total_questions := length selection in
  let current_questions := paginate_questions e args selection in
  if (length current_questions =? 0)%nat then abort 404
  else
    categories ← Category_query_all e;
    mret (QuestionsBody true current_questions total_questions None
                        (categories_dict categories), Some 200).

(** ** DELETE /questions/<int:question_id> *)

Definition delete_question (e : env) (question_id : Z) : M view_result :=
  try_finally
    (try_except
       (question ← Question_query_get e question_id;
        match question with
        | None => abort 404
        | Some q =>
            session_delete e q;;
            _ ← session_commit e;
            mret (DeletedBody true question_id, Some 200)
        end)
       (λ _, session_rollback;; abort 404))
    session_close.

(** ** POST /questions *)

(** [body] is what [request.get_json()] returned. After the commit the
    handler reads the attributes of the one object it added. *)
Definition add_question (e : env) (body : json) : M view_result :=
  new_question ← lift (dict_get body "question");
  new_answer ← lift (dict_get body "answer");
  new_category ← lift (dict_get body "category");
  new_difficulty ← lift (dict_get body "difficulty");
  if negb (truthy new_question && truthy new_answer
           && truthy new_category && truthy new_difficulty)
  then abort 400
  else
    try_finally
      (try_except
         (session_add e new_question new_answer new_category new_difficulty;;
          created ← session_commit e;
          match created with
          | [question] =>
              mret (CreatedBody true (Question.id question)
                      (Question.question question) (Question.answer question)
                      (Question.category question) (Question.difficulty question),
                    Some 201)
          | _ => raise AttributeError
          end)
         (λ _, session_rollback;; abort 500))
      session_close.

(** ** POST /questions/search *)

(** *** The [ILIKE] operator of the database

    [%] stands for any sequence of characters, [_] for any one character,
    and a backslash takes the next character literally; a pattern may not
    end with a lone backslash. Letters are compared without case (ASCII). *)
Inductive like_token := AnySequence | AnyOne | Literal (c : ascii).

Fixpoint like_parse (pattern : string) : option (list like_token) :=
  match pattern with
  | EmptyString => Some []
  | String c rest =>
      if Ascii.eqb c "\"%char then
        match rest with
        | EmptyString => None
        | String c' rest' => cons (Literal c') <$> like_parse rest'
        end
      else if Ascii.eqb c "%"%char then cons AnySequence <$> like_parse rest
      else if Ascii.eqb c "_"%char then cons AnyOne <$> like_parse rest
      else cons (Literal c) <$> like_parse rest
  end.

Definition lower (c : ascii) : ascii :=
  let n := nat_of_ascii c in
  if ((65 <=? n) && (n <=? 90))%nat then ascii_of_nat (n + 32) else c.

Fixpoint like_match (tokens : list like_token) (text : string) : bool :=
  match tokens with
  | [] => match text with EmptyString => true | _ => false end
  | AnySequence :: tokens' =>
      (fix skip (t : string) : bool :=
         like_match tokens' t
         || match t with EmptyString => false | String _ t' => skip t' end) text
  | AnyOne :: tokens' =>
      match text with
      | EmptyString => false
      | String _ t' => like_match tokens' t'
      end
  | Literal c :: tokens' =>
      match text with
      | EmptyString => false
      | String d t' => Ascii.eqb (lower c) (lower d) && like_match tokens' t'
      end
  end.

(** [Question.query.filter(Question.question.ilike(pattern)).all()] *)
Definition Question_query_ilike (e : env) (pattern : string) : M (list Question.t) := λ w,
  if e QueryFilter then (Raise StorageError, touch w)
  else match like_parse pattern with
       | None => (Raise StorageError, touch w)
       | Some tokens =>
           (Return (filter (λ q, like_match tokens (Question.question q) = true)
                           (questions (db w))),
            touch w)
       end.

Section Search.
(** [str(v)] of a list or a dict (Python's [repr]) is left open. *)
Variable container_repr : json → string.

(** [f'{v}'] *)
Definition py_str (v : json) : string :=
  match v with
  | JNull => "None"
  | JBool b => if b then "True" else "False"
  | JInt n => pretty n
  | JStr s => s
  | JList _ | JObj _ => container_repr v
  end.

Definition search_questions (e : env) (body : json) : M view_result :=
  search_term ← lift (dict_get body "searchTerm");
  if negb (truthy search_term) then abort 400
  else
    try_except
      (results ← Question_query_ilike e ("%" +:+ py_str search_term +:+ "%");
       let questions := Question.format <$> results in
       let total_questions := length questions in
       mret (SearchBody true questions total_questions None, Some 200))
      (λ _, abort 500).
End Search.

(** ** POST /quizzes *)

Definition is_none (v : json) : bool :=
  match v with JNull => true | _ => false end.

(** [~Question.id.in_(v)]: the ids that pass. For a list of integers
    these are the ids that are not in the list; what any other value
    selects, or that it is rejected, is the environment's. *)
Definition Question_id_not_in_ (e : env) (v : json) : outcome (Z → bool) :=
  match v with
  | JList l =>
      match mapM as_integer l with
      | Some ids => Return (λ i, bool_decide (i ∉ ids))
      | None => orm_not_in e v
      end
  | _ => orm_not_in e v
  end.

(** [filter_by(category=v)]: the categories that pass. An integer passes
    the rows of that category; [None] compares with [NULL], which no row
    of the typed store holds; any other value is the environment's. *)
Definition filter_by_category (e : env) (v : json) : outcome (Z → bool) :=
  match v with
  | JInt n => Return (λ c, bool_decide (c = n))
  | JNull => Return (λ _, false)
  | _ => orm_category e v
  end.

(** [Question.query.filter...(..).all()] for a decidable row condition *)
Definition Question_query_filter (e : env) (P : Question.t → Prop)
    `{!∀ q, Decision (P q)} : M (list Question.t) := λ w,
  if e QueryFilter then (Raise StorageError, touch w)
  else (Return (filter P (questions (db w))), touch w).

(** [random.choice(seq)] is [seq[i]] for the index [i] that the generator
    draws below [len(seq)]; [draw] is that index. *)
Definition random_choice {A} (draw : nat) (seq : list A) : outcome A :=
  match seq !! draw with
  | Some x => Return x
  | None => Raise IndexError
  end.

(** The [try] block of the handler. [get_json] is what
    [request.get_json()] does: it returns the decoded body or raises. *)
Definition play_quiz_body (e : env) (draw : nat) (get_json : outcome json)
  : M view_result :=
  body ← lift get_json;
  category ← lift (dict_get body "quiz_category");
  previous_questions ← lift (dict_get body "previous_questions");
  (if is_none category || is_none previous_questions
   then abort 400 else mret ());;
  category_id ← lift (getitem category "id");
  available_questions ←
    (if py_eq_int category_id 0 then
       unseen ← lift (Question_id_not_in_ e previous_questions);
       Question_query_filter e (λ q, unseen (Question.id q) = true)
     else
       wanted ← lift (filter_by_category e category_id);
       unseen ← lift (Question_id_not_in_ e previous_questions);
       Question_query_filter e
         (λ q, wanted (Question.category q) = true
               ∧ unseen (Question.id q) = true));
  new_question ←
    (if (0 <? length available_questions)%nat then
       q ← lift (random_choice draw available_questions);
       mret (Some (Question.format q))
     else mret None);
  mret (QuizBody true new_question, Some 200).

Definition play_quiz (e : env) (draw : nat) (get_json : outcome json) : M view_result :=
  try_except (play_quiz_body e draw get_json) (λ _, abort 400).

(** * Properties *)

(** ** Sanity checks of the Python primitives *)

Example py_int_42 : py_int healthy " +4_2 " = Some 42.
Proof. reflexivity. Qed.
Example py_int_abc : py_int healthy "abc" = None.
Proof. reflexivity. Qed.
Example py_int_neg : py_int healthy "-1" = Some (-1).
Proof. reflexivity. Qed.
Example py_int_bad_us : py_int healthy "1__0" = None.
Proof. reflexivity. Qed.
Example py_int_unit_separator : py_int healthy (String (ascii_of_nat 31) "2") = None.
Proof. reflexivity. Qed.

(** The text of an ASCII integer is read the same in every environment. *)
Lemma py_int_ascii (e : env) (s : string) :
  is_ascii s = true → py_int e s = ascii_int s.
Proof. unfold py_int. by intros ->. Qed.
Example slice_neg : py_slice [1;2;3;4;5] (-4) (-1) = [2;3;4].
Proof. reflexivity. Qed.
Example slice_zero : py_slice [1;2;3;4;5] (-10) 0 = [].
Proof. reflexivity. Qed.

(** ** Slicing *)

Lemma py_slice_nonneg {A} (l : list A) (a n : Z) :
  0 ≤ a → 0 ≤ n →
  py_slice l a (a + n) = take (Z.to_nat n) (drop (Z.to_nat a) l).
Proof.
  intros Ha Hn. unfold py_slice, slice_index.
  destruct (Z.ltb_spec a 0) as [|_]; [lia|].
  destruct (Z.ltb_spec (a + n) 0) as [|_]; [lia|].
  set (len := Z.of_nat (length l)).
  assert (Hlen : length l = Z.to_nat len) by (subst len; lia).
  destruct (Z.le_gt_cases len a) as [Hge|Hlt].
  - rewrite !Z.min_r by lia. replace (Z.to_nat (len - len)) with 0%nat by lia.
    rewrite take_0. rewrite (drop_ge l (Z.to_nat a)) by lia. by rewrite take_nil.
  - rewrite (Z.min_l a) by lia.
    destruct (Z.le_gt_cases (a + n) len) as [Hfit|Hover].
    + rewrite Z.min_l by lia. f_equal. lia.
    + rewrite Z.min_r by lia.
      rewrite !take_ge; [done| |]; rewrite length_drop; lia.
Qed.

Lemma py_slice_length {A} (l : list A) (a n : Z) :
  0 ≤ n → (length (py_slice l a (a + n)) ≤ Z.to_nat n)%nat.
Proof.
  intros Hn. unfold py_slice. rewrite length_take.
  unfold slice_index.
  destruct (Z.ltb_spec a 0), (Z.ltb_spec (a + n) 0); lia.
Qed.

(** ** The category mapping *)

Lemma categories_dict_snoc (cs : list Category.t) (c : Category.t) :
  categories_dict (cs ++ [c]) = <[Category.id c := Category.type c]> (categories_dict cs).
Proof. unfold categories_dict. by rewrite foldl_app. Qed.

(** The mapping holds, for every id, the label of the last category that
    carries it, and nothing else. *)
Lemma categories_dict_lookup (cs : list Category.t) (i : Z) :
  categories_dict cs !! i
  = Category.type <$> last (filter (λ c, Category.id c = i) cs).
Proof.
  induction cs as [|c cs IH] using rev_ind; [done|].
  rewrite categories_dict_snoc, filter_app, filter_cons, filter_nil.
  destruct (decide (Category.id c = i)) as [->|Hne].
  - rewrite lookup_insert_eq. by rewrite last_snoc.
  - rewrite lookup_insert_ne by done. by rewrite app_nil_r.
Qed.

(** ** GET /questions *)

Definition server_error : response :=
  mk_response 500 (ErrorBody false 500 "internal server error!").

Lemma get_questions_response (e : env) (args : list (string * string)) (s : store) :
  (serve (get_questions e args) s).1 =
    if e QuestionAll then server_error
    else if (length (paginate_questions e args (questions s)) =? 0)%nat
    then handle_exception (HTTPException 404)
    else if e CategoryAll then server_error
    else make_response
           (QuestionsBody true (paginate_questions e args (questions s))
              (length (questions s)) None (categories_dict (categories s)),
            Some 200).
Proof.
  unfold serve, get_questions, mbind, M_bind, Question_query_all,
    Category_query_all.
  simpl. destruct (e QuestionAll); simpl; [done|].
  destruct (length (paginate_questions e args (questions s)) =? 0)%nat; [done|].
  simpl. by destruct (e CategoryAll).
Qed.

Lemma paginate_questions_page (e : env) (args : list (string * string))
    (qs : list Question.t) :
  let page := args_get_int e args "page" 1 in
  paginate_questions e args qs
  = py_slice (Question.format <$> qs) (10 * (page - 1)) (10 * (page - 1) + 10).
Proof. unfold paginate_questions, QUESTIONS_PER_PAGE. simpl. f_equal; lia. Qed.

(** The page window in the words of the specification: positions
    [10*(p-1)] (included) to [10*p] (excluded) of the formatted list. *)
Definition spec_page_window (p : Z) (qs : list Question.t) : list json :=
  take 10 (drop (Z.to_nat (10 * (p - 1))) (Question.format <$> qs)).

Lemma paginate_questions_window (e : env) (args : list (string * string))
    (qs : list Question.t) :
  1 ≤ args_get_int e args "page" 1 →
  paginate_questions e args qs = spec_page_window (args_get_int e args "page" 1) qs.
Proof.
  intros Hp. rewrite paginate_questions_page. simpl.
  rewrite py_slice_nonneg by lia. done.
Qed.

(** A store for the examples: twelve questions in two categories. *)
Definition demo_question (i : Z) : Question.t :=
  Question.mk i ("Question " +:+ pretty i) "answer" (1 + i `mod` 2) 3.

Definition demo_store : store :=
  mk_store (demo_question <$> [1; 2; 3; 4; 5; 6; 7; 8; 9; 10; 11; 12])
           [Category.mk 1 "Science"; Category.mk 2 "Art"]
           13 (list_to_set [1; 2; 3; 4; 5; 6; 7; 8; 9; 10; 11; 12]).

(** C2: for a page number [p >= 1] whose window is not empty, GET /questions
    answers 200 with the formatted questions at positions [10*(p-1)] to
    [10*p] (at most ten of them), the count of all stored questions, a null
    current category and the full mapping from category id to label. This
    is the answer when the two queries of the handler return; when one of
    them raises, the answer is 500. *)
Theorem get_questions_page_ok (e : env) (args : list (string * string))
    (s : store) (p : Z) :
  args_get_int e args "page" 1 = p →
  1 ≤ p →
  spec_page_window p (questions s) ≠ [] →
  (e QuestionAll = false → e CategoryAll = false →
     (serve (get_questions e args) s).1
       = mk_response 200
           (QuestionsBody true (spec_page_window p (questions s))
              (length (questions s)) None (categories_dict (categories s))))
  ∧ (e QuestionAll = true ∨ e CategoryAll = true →
     (serve (get_questions e args) s).1
       = mk_response 500 (ErrorBody false 500 "internal server error!"))
  ∧ (length (spec_page_window p (questions s)) ≤ 10)%nat
  ∧ ∀ i, categories_dict (categories s) !! i
         = Category.type <$> last (filter (λ c, Category.id c = i) (categories s)).
Proof.
  intros Hpage Hp Hne.
  assert (Hr := get_questions_response e args s).
  rewrite paginate_questions_window, Hpage in Hr by lia.
  destruct (spec_page_window p (questions s)) as [|x l] eqn:E; [done|].
  simpl in Hr.
  split; [|split; [|split]].
  - intros Hq Hc. by rewrite Hr, Hq, Hc.
  - intros [Hq|Hc]; rewrite Hr.
    + by rewrite Hq.
    + rewrite Hc. by destruct (e QuestionAll).
  - rewrite <- E. unfold spec_page_window. rewrite length_take. lia.
  - intros i. apply categories_dict_lookup.
Qed.

Lemma get_questions_page_ok_witness :
  (serve (get_questions healthy [("page", "2")]) demo_store).1
    = mk_response 200
        (QuestionsBody true (spec_page_window 2 (questions demo_store))
           12 None (categories_dict (categories demo_store))).
Proof.
  exact (proj1 (get_questions_page_ok healthy [("page", "2")] demo_store 2
                  eq_refl ltac:(lia) ltac:(discriminate))
               eq_refl eq_refl).
Defined.

Lemma window_empty_of_no_rows (e : env) (args : list (string * string)) :
  paginate_questions e args [] = [].
Proof.
  unfold paginate_questions, py_slice. rewrite fmap_nil, drop_nil. apply take_nil.
Qed.

Lemma window_empty_past_end (e : env) (args : list (string * string))
    (qs : list Question.t) :
  Z.of_nat (length qs) ≤ 10 * (args_get_int e args "page" 1 - 1) →
  paginate_questions e args qs = [].
Proof.
  intros Hlen. rewrite paginate_questions_page. simpl.
  rewrite py_slice_nonneg by lia.
  rewrite drop_ge; [by rewrite take_nil|].
  rewrite length_fmap. lia.
Qed.

(** C3: whenever the page window is empty (no stored question at all, a
    page beyond the last one, or any other empty window) GET /questions
    answers 404 with [success] false. This is the answer when the query
    of the questions returns; when it raises, the answer is 500. *)
Theorem get_questions_empty_window (e : env) (args : list (string * string))
    (s : store) :
  questions s = []
  ∨ Z.of_nat (length (questions s)) ≤ 10 * (args_get_int e args "page" 1 - 1)
  ∨ paginate_questions e args (questions s) = [] →
  (e QuestionAll = false →
     (serve (get_questions e args) s).1
       = mk_response 404 (ErrorBody false 404 "resource not found!")
     ∧ success_of (serve (get_questions e args) s).1 = Some false)
  ∧ (e QuestionAll = true →
     (serve (get_questions e args) s).1
       = mk_response 500 (ErrorBody false 500 "internal server error!")).
Proof.
  intros H.
  assert (Hw : paginate_questions e args (questions s) = []).
  { destruct H as [H|[H|H]]; [|by apply window_empty_past_end|done].
    rewrite H. apply window_empty_of_no_rows. }
  rewrite get_questions_response, Hw. split; intros ->; done.
Qed.

Lemma get_questions_empty_window_witness :
  (serve (get_questions healthy [("page", "10000")]) demo_store).1
    = mk_response 404 (ErrorBody false 404 "resource not found!")
  ∧ success_of (serve (get_questions healthy [("page", "10000")]) demo_store).1
    = Some false.
Proof.
  apply (get_questions_empty_window healthy [("page", "10000")] demo_store);
    [|reflexivity].
  right; left. vm_compute. discriminate.
Defined.

(** The elements of [l] at the positions [i] with [lo <= i < hi], for
    integer bounds: what the specification calls positions [lo, hi). *)
Definition spec_positions {A} (lo hi : Z) (l : list A) : list A :=
  take (Z.to_nat (hi - Z.max 0 lo)) (drop (Z.to_nat lo) l).

Lemma spec_positions_lookup {A} (lo hi : Z) (l : list A) (k : nat) :
  spec_positions lo hi l !! k
  = if decide (Z.max 0 lo + Z.of_nat k < hi)
    then l !! (Z.to_nat lo + k)%nat else None.
Proof.
  unfold spec_positions. case_decide as Hk.
  - rewrite lookup_take_lt by lia. by rewrite lookup_drop.
  - apply lookup_take_ge. lia.
Qed.

Lemma py_slice_negative {A} (l : list A) (a b : Z) :
  a < 0 → b < 0 →
  py_slice l a b
  = spec_positions (Z.of_nat (length l) + a) (Z.of_nat (length l) + b) l.
Proof.
  intros Ha Hb. unfold py_slice, spec_positions, slice_index.
  destruct (Z.ltb_spec a 0) as [_|]; [|lia].
  destruct (Z.ltb_spec b 0) as [_|]; [|lia].
  set (len := Z.of_nat (length l)).
  destruct (Z.le_gt_cases 0 (len + a)) as [Hpos|Hneg].
  - rewrite (Z.max_l (a + len)), (Z.max_r 0 (len + a)) by lia.
    destruct (Z.le_gt_cases 0 (len + b)).
    + rewrite Z.max_l by lia. do 2 f_equal; lia.
    + rewrite Z.max_r by lia.
      replace (Z.to_nat (0 - (a + len))) with 0%nat by lia.
      replace (Z.to_nat (len + b - (len + a))) with 0%nat by lia.
      by rewrite !take_0.
  - rewrite (Z.max_r (a + len)), (Z.max_l 0 (len + a)) by lia.
    replace (Z.to_nat (len + a)) with 0%nat by lia.
    replace (Z.to_nat 0) with 0%nat by lia.
    f_equal. lia.
Qed.

(** C9: page 0 always gives 404; a negative page is sliced with negative
    indices, that is from the end of the list, and page -1 on a store of
    more than ten questions gives a non-empty 200 response holding the
    positions [len-20, len-10). These are the answers when the queries of
    the handler return; when the query of the questions raises, the answer
    is 500. *)
Theorem get_questions_page_zero_and_negative
    (e : env) (args : list (string * string)) (s : store) (p : Z) :
  args_get_int e args "page" 1 = p →
  (p = 0 → e QuestionAll = false →
     (serve (get_questions e args) s).1
       = mk_response 404 (ErrorBody false 404 "resource not found!"))
  ∧ (p < 0 →
     paginate_questions e args (questions s)
       = spec_positions (Z.of_nat (length (questions s)) + 10 * (p - 1))
                        (Z.of_nat (length (questions s)) + 10 * p)
                        (Question.format <$> questions s))
  ∧ (p = -1 → 10 < Z.of_nat (length (questions s)) →
     let window :=
       spec_positions (Z.of_nat (length (questions s)) - 20)
                      (Z.of_nat (length (questions s)) - 10)
                      (Question.format <$> questions s) in
     window ≠ []
     ∧ (e QuestionAll = false → e CategoryAll = false →
        (serve (get_questions e args) s).1
          = mk_response 200
              (QuestionsBody true window (length (questions s)) None
                 (categories_dict (categories s)))))
  ∧ (e QuestionAll = true →
     (serve (get_questions e args) s).1
       = mk_response 500 (ErrorBody false 500 "internal server error!")).
Proof.
  intros Hpage.
  assert (Hneg : p < 0 →
    paginate_questions e args (questions s)
    = spec_positions (Z.of_nat (length (questions s)) + 10 * (p - 1))
                     (Z.of_nat (length (questions s)) + 10 * p)
                     (Question.format <$> questions s)).
  { intros Hp. rewrite paginate_questions_page, Hpage. simpl.
    rewrite py_slice_negative by lia. rewrite length_fmap.
    f_equal; lia. }
  split; [|split; [|split]].
  - intros -> Hq.
    rewrite get_questions_response, Hq, paginate_questions_page, Hpage.
    simpl. unfold py_slice, slice_index. simpl.
    replace (Z.to_nat _) with 0%nat by lia. by rewrite take_0.
  - done.
  - intros -> Hlen. cbv zeta.
    assert (Hr := get_questions_response e args s).
    rewrite Hneg in Hr by lia.
    replace (Z.of_nat (length (questions s)) + 10 * (-1 - 1))
      with (Z.of_nat (length (questions s)) - 20) in Hr by lia.
    replace (Z.of_nat (length (questions s)) + 10 * -1)
      with (Z.of_nat (length (questions s)) - 10) in Hr by lia.
    set (window := spec_positions _ _ _) in *.
    assert (Hw : (0 < length window)%nat).
    { subst window. unfold spec_positions.
      rewrite length_take, length_drop, length_fmap. lia. }
    destruct window; simpl in *; [lia|].
    split; [done|]. intros Hq Hc. by rewrite Hr, Hq, Hc.
  - intros Hq. by rewrite get_questions_response, Hq.
Qed.

Lemma get_questions_page_zero_and_negative_witness :
  (serve (get_questions healthy [("page", "-1")]) demo_store).1
    = mk_response 200
        (QuestionsBody true
           (Question.format <$> [demo_question 1; demo_question 2])
           12 None (categories_dict (categories demo_store))).
Proof.
  pose proof (get_questions_page_zero_and_negative healthy
                [("page", "-1")] demo_store (-1) eq_refl) as (_ & _ & H & _).
  destruct (H eq_refl ltac:(vm_compute; reflexivity)) as [_ H'].
  exact (H' eq_refl eq_refl).
Defined.

(** C10: when the [page] parameter is absent, or is not the text of an
    integer, the handler answers exactly as for page 1. *)
Theorem get_questions_default_page (e : env) (args : list (string * string))
    (s : store) :
  args_get args "page" = None
  ∨ (∃ v, args_get args "page" = Some v ∧ py_int e v = None) →
  serve (get_questions e args) s = serve (get_questions e [("page", "1")]) s.
Proof.
  intros H.
  assert (Hpage : args_get_int e args "page" 1
                  = args_get_int e [("page", "1")] "page" 1).
  { unfold args_get_int at 1. destruct H as [->|(v & -> & ->)]; done. }
  unfold get_questions, paginate_questions. by rewrite Hpage.
Qed.

Lemma get_questions_default_page_witness :
  serve (get_questions healthy [("page", "abc")]) demo_store
  = serve (get_questions healthy [("page", "1")]) demo_store.
Proof.
  apply (get_questions_default_page healthy [("page", "abc")] demo_store).
  right. exists "abc". split; reflexivity.
Defined.

(** ** Error handlers *)

(** C8: the handler registered for 405 builds the envelope with
    [success] false and [error] 405, and gives no status, so the response
    goes out with status 200; every other registered handler answers with
    its own code. *)
Theorem not_allowed_served_with_200 (error : exn) :
  make_response (not_allowed error)
    = mk_response 200 (ErrorBody false 405 "method not allowed!")
  ∧ handle_exception (HTTPException 405)
    = mk_response 200 (ErrorBody false 405 "method not allowed!")
  ∧ ∀ code handler,
      error_handler code = Some handler →
      (∃ message, data (make_response (handler error)) = ErrorBody false code message)
      ∧ status_code (make_response (handler error))
        = if code =? 405 then 200 else code.
Proof.
  split; [done|]. split; [done|].
  intros code handler. unfold error_handler.
  destruct (Z.eqb_spec code 400) as [->|?]; [intros [= <-]; simpl; eauto|].
  destruct (Z.eqb_spec code 404) as [->|?]; [intros [= <-]; simpl; eauto|].
  destruct (Z.eqb_spec code 405) as [->|?]; [intros [= <-]; simpl; eauto|].
  destruct (Z.eqb_spec code 422) as [->|?]; [intros [= <-]; simpl; eauto|].
  destruct (Z.eqb_spec code 500) as [->|?]; [intros [= <-]; simpl; eauto|].
  done.
Qed.

(** ** DELETE /questions/<int:question_id> *)

Lemma lookup_row_None (qs : list Question.t) (i : Z) :
  head (filter (λ q, Question.id q = i) qs) = None
  ↔ ∀ q, q ∈ qs → Question.id q ≠ i.
Proof.
  rewrite head_None. split.
  - intros Hnil q Hq Hid.
    assert (Hin : q ∈ filter (λ q, Question.id q = i) qs)
      by (apply list_elem_of_filter; done).
    rewrite Hnil in Hin. by apply not_elem_of_nil in Hin.
  - intros Hall. destruct (filter _ qs) as [|q l] eqn:E; [done|].
    assert (Hin : q ∈ filter (λ q, Question.id q = i) qs)
      by (rewrite E; apply list_elem_of_here).
    apply list_elem_of_filter in Hin as [Hid Hq]. by destruct (Hall q Hq).
Qed.

Lemma lookup_row_Some (qs : list Question.t) (i : Z) (q : Question.t) :
  head (filter (λ q, Question.id q = i) qs) = Some q →
  q ∈ qs ∧ Question.id q = i.
Proof.
  intros H. destruct (filter _ qs) as [|q' l] eqn:E; [done|].
  injection H as ->.
  assert (Hin : q ∈ filter (λ q, Question.id q = i) qs)
    by (rewrite E; apply list_elem_of_here).
  apply list_elem_of_filter in Hin. tauto.
Qed.

(** What the handler does, path by path. *)
Definition delete_failed (s : store) : response * world :=
  (mk_response 404 (ErrorBody false 404 "resource not found!"),
   mk_world s [] false [EvRollback; EvClose]).

Lemma delete_question_run (e : env) (question_id : Z) (s : store) :
  serve (delete_question e question_id) s =
    if e QueryGet then delete_failed s
    else match head (filter (λ q, Question.id q = question_id) (questions s)) with
         | None => delete_failed s
         | Some _ =>
             if e SessionDelete then delete_failed s
             else if e SessionCommit then delete_failed s
             else
               (mk_response 200 (DeletedBody true question_id),
                mk_world
                  (mk_store (filter (λ q, Question.id q ≠ question_id) (questions s))
                            (categories s) (next_id s) (issued s))
                  [] false [EvCommit; EvClose])
         end.
Proof.
  unfold serve, delete_question, try_finally, try_except, mbind, M_bind,
    Question_query_get, session_delete, session_commit, session_rollback,
    session_close, abort, raise, delete_failed.
  simpl. destruct (e QueryGet); simpl; [done|].
  destruct (head _) as [q|] eqn:Hq; simpl; [|done].
  apply lookup_row_Some in Hq as [_ Hid].
  destruct (e SessionDelete); simpl; [done|].
  destruct (e SessionCommit); simpl; [done|].
  by rewrite Hid.
Qed.

(** C4: DELETE /questions/<id> answers 404 when no question has the id;
    when one has and the delete commits it answers 200 with [deleted] the
    id, and no question of that id is left in the store; an exception of
    the lookup, the delete or the commit is rolled back (the store is as
    before) and answered 404; the answer is never a server error, and on
    every path the session ends closed. *)
Theorem delete_question_spec (e : env) (question_id : Z) (s : store) :
  let r := (serve (delete_question e question_id) s).1 in
  let w := (serve (delete_question e question_id) s).2 in
  (active w = false ∧ pending w = [] ∧ last (trace w) = Some EvClose)
  ∧ (r = mk_response 200 (DeletedBody true question_id)
     ∨ r = mk_response 404 (ErrorBody false 404 "resource not found!"))
  ∧ ((∀ q, q ∈ questions s → Question.id q ≠ question_id) →
     r = mk_response 404 (ErrorBody false 404 "resource not found!") ∧ db w = s)
  ∧ ((∃ q, q ∈ questions s ∧ Question.id q = question_id) →
     e QueryGet = false → e SessionDelete = false → e SessionCommit = false →
     r = mk_response 200 (DeletedBody true question_id)
     ∧ questions (db w) = filter (λ q, Question.id q ≠ question_id) (questions s)
     ∧ (∀ q, q ∈ questions (db w) → Question.id q ≠ question_id)
     ∧ categories (db w) = categories s
     ∧ EvCommit ∈ trace w)
  ∧ (e QueryGet = true ∨ e SessionDelete = true ∨ e SessionCommit = true →
     r = mk_response 404 (ErrorBody false 404 "resource not found!")
     ∧ db w = s ∧ EvRollback ∈ trace w).
Proof.
  simpl. rewrite delete_question_run.
  destruct (head _) as [q|] eqn:Hq.
  - apply lookup_row_Some in Hq as [Hin Hid].
    destruct (e QueryGet), (e SessionDelete), (e SessionCommit); simpl;
      (split; [done|]); (split; [by auto|]);
      (split; [intros Hno; by destruct (Hno q Hin)|]);
      (split; [|intros [?|[?|?]]; try done; repeat split; set_solver]);
      intros _ ? ? ?; try done.
    repeat split; try done; [|set_solver].
    intros q' Hq'. by apply list_elem_of_filter in Hq' as [? _].
  - pose proof (proj1 (lookup_row_None _ _) Hq) as Hno. clear Hq.
    destruct (e QueryGet); simpl;
      (split; [done|]); (split; [by auto|]); (split; [done|]);
      (split; [intros (q & Hin & Hid); by destruct (Hno q Hin)|]);
      intros _; repeat split; set_solver.
Qed.

Example delete_question_present :
  (serve (delete_question healthy 3) demo_store).1
    = mk_response 200 (DeletedBody true 3)
  ∧ Question.id <$> questions (db (serve (delete_question healthy 3) demo_store).2)
    = [1; 2; 4; 5; 6; 7; 8; 9; 10; 11; 12].
Proof. split; reflexivity. Qed.

Example delete_question_absent :
  (serve (delete_question healthy 100000) demo_store).1
    = mk_response 404 (ErrorBody false 404 "resource not found!").
Proof. reflexivity. Qed.

(** ** POST /questions *)

(** The value [body.get(key, None)] of a field of a JSON object. *)
Definition field (m : gmap string json) (key : string) : json :=
  default JNull (m !! key).


Definition add_failed (s : store) : response * world :=
  (mk_response 500 (ErrorBody false 500 "internal server error!"),
   mk_world s [] false [EvRollback; EvClose]).

(** What the handler does, path by path. *)
Lemma add_question_run (e : env) (m : gmap string json) (s : store) :
  serve (add_question e (JObj m)) s =
    if negb (truthy (field m "question") && truthy (field m "answer")
             && truthy (field m "category") && truthy (field m "difficulty"))
    then (mk_response 400 (ErrorBody false 400 "bad request!"),
          mk_world s [] false [])
    else if e SessionAdd then add_failed s
    else if e SessionCommit then add_failed s
    else match as_text (field m "question"), as_text (field m "answer"),
               as_integer (field m "category"), as_integer (field m "difficulty") with
         | Some q, Some a, Some c, Some d =>
             (mk_response 201 (CreatedBody true (next_id s) q a c d),
              mk_world
                (mk_store (questions s ++ [Question.mk (next_id s) q a c d])
                          (categories s) (next_id s + 1) ({[next_id s]} ∪ issued s))
                [] false [EvCommit; EvClose])
         | _, _, _, _ => add_failed s
         end.
Proof.
  unfold serve, add_question, try_finally, try_except, mbind, M_bind, lift,
    session_add, session_commit, session_rollback, session_close, abort,
    raise, add_failed, dict_get, field.
  simpl.
  destruct (negb _); [done|].
  destruct (e SessionAdd); simpl; [done|].
  destruct (e SessionCommit); simpl; [done|].
  destruct (as_text (default JNull (m !! "question"))); simpl; [|done].
  destruct (as_text (default JNull (m !! "answer"))); simpl; [|done].
  destruct (as_integer (default JNull (m !! "category"))); simpl; [|done].
  destruct (as_integer (default JNull (m !! "difficulty"))); simpl; done.
Qed.

Lemma store_wf_fresh (s : store) :
  store_wf s →
  (next_id s ∉ issued s) ∧ (∀ q, q ∈ questions s → Question.id q ≠ next_id s).
Proof.
  intros [Hrows Hissued]. split.
  - intros Hin. apply Hissued in Hin. lia.
  - intros q Hq Hid. apply Hrows, Hissued in Hq. lia.
Qed.

Lemma store_wf_insert (s : store) (q a : string) (c d : Z) :
  store_wf s →
  store_wf (mk_store (questions s ++ [Question.mk (next_id s) q a c d])
                     (categories s) (next_id s + 1) ({[next_id s]} ∪ issued s)).
Proof.
  intros [Hrows Hissued]. split; simpl.
  - intros x Hx. apply elem_of_app in Hx as [Hx|Hx].
    + apply Hrows in Hx. set_solver.
    + apply list_elem_of_singleton in Hx as ->. set_solver.
  - intros i Hi. apply elem_of_union in Hi as [Hi|Hi].
    + apply elem_of_singleton in Hi as ->. lia.
    + apply Hissued in Hi. lia.
Qed.

Lemma store_wf_remove (s : store) (i : Z) :
  store_wf s →
  store_wf (mk_store (filter (λ q, Question.id q ≠ i) (questions s))
                     (categories s) (next_id s) (issued s)).
Proof.
  intros [Hrows Hissued]. split; simpl; [|done].
  intros q Hq. apply list_elem_of_filter in Hq as [_ Hq]. by apply Hrows.
Qed.

(** Both writing handlers keep the generator ahead of the issued ids. *)
Lemma delete_question_wf (e : env) (question_id : Z) (s : store) :
  store_wf s → store_wf (db (serve (delete_question e question_id) s).2).
Proof.
  intros Hwf. rewrite delete_question_run. unfold delete_failed.
  destruct (e QueryGet); [done|].
  destruct (head _); [|done].
  destruct (e SessionDelete), (e SessionCommit); simpl; try done.
  by apply store_wf_remove.
Qed.

Lemma add_question_wf (e : env) (m : gmap string json) (s : store) :
  store_wf s → store_wf (db (serve (add_question e (JObj m)) s).2).
Proof.
  intros Hwf. rewrite add_question_run. unfold add_failed.
  destruct (negb _), (e SessionAdd), (e SessionCommit); simpl; try done.
  destruct (as_text (field m "question")), (as_text (field m "answer")),
    (as_integer (field m "category")), (as_integer (field m "difficulty"));
    simpl; try done.
  by apply store_wf_insert.
Qed.

Lemma demo_store_wf : store_wf demo_store.
Proof.
  split.
  - intros q Hq. unfold demo_store in *. cbn [questions issued] in *.
    apply elem_of_list_to_set.
    apply list_elem_of_fmap in Hq as (i & -> & Hi). exact Hi.
  - intros i Hi. unfold demo_store in *. cbn [issued next_id] in *.
    apply elem_of_list_to_set in Hi.
    repeat (apply elem_of_cons in Hi as [->|Hi]; [lia|]).
    by apply not_elem_of_nil in Hi.
Qed.

Definition obj (fields : list (string * json)) : json := JObj (list_to_map fields).

(** A storage session whose commit raises. *)
Definition commit_raises : env :=
  mk_env (λ call, match call with SessionCommit => true | _ => false end)
         (λ _, None) (λ _, Raise StorageError) (λ _, Raise StorageError).




Example add_question_difficulty_zero :
  (serve (add_question healthy
     (obj [("question", JStr "What day is Taco Tuesday?");
           ("answer", JStr "Tuesday"); ("category", JInt 3);
           ("difficulty", JInt 0)])) demo_store)
  = (mk_response 400 (ErrorBody false 400 "bad request!"),
     mk_world demo_store [] false []).
Proof. reflexivity. Qed.

(** *** Ids over a sequence of writing requests

    The requests that change the store, served one after the other: the
    ids reported as [created] are pairwise distinct and none of them had
    been issued before the sequence started. *)
Inductive write_request :=
| PostQuestion (e : env) (m : gmap string json)
| DeleteQuestion (e : env) (question_id : Z).

Definition serve_write (rq : write_request) (s : store) : response * store :=
  match rq with
  | PostQuestion e m =>
      let '(r, w) := serve (add_question e (JObj m)) s in (r, db w)
  | DeleteQuestion e question_id =>
      let '(r, w) := serve (delete_question e question_id) s in (r, db w)
  end.

Fixpoint serve_all (rqs : list write_request) (s : store) : list response * store :=
  match rqs with
  | [] => ([], s)
  | rq :: rqs' =>
      let '(r, s1) := serve_write rq s in
      let '(rs, s2) := serve_all rqs' s1 in
      (r :: rs, s2)
  end.

Definition created_id (r : response) : option Z :=
  match data r with
  | CreatedBody _ i _ _ _ _ => Some i
  | _ => None
  end.

Lemma serve_write_step (rq : write_request) (s : store) :
  store_wf s →
  store_wf (serve_write rq s).2
  ∧ issued s ⊆ issued (serve_write rq s).2
  ∧ ∀ i, created_id (serve_write rq s).1 = Some i →
         (i ∉ issued s) ∧ (i ∈ issued (serve_write rq s).2).
Proof.
  intros Hwf. destruct rq as [e m|e question_id]; simpl.
  - pose proof (add_question_wf e m s Hwf) as Hwf'.
    pose proof (add_question_run e m s) as Hrun.
    destruct (serve (add_question e (JObj m)) s) as [r w]. simpl in *.
    split; [done|].
    unfold add_failed in Hrun.
    destruct (negb _); [injection Hrun as -> ->; by split|].
    destruct (e SessionAdd); [injection Hrun as -> ->; by split|].
    destruct (e SessionCommit); [injection Hrun as -> ->; by split|].
    destruct (as_text (field m "question")); [|injection Hrun as -> ->; by split].
    destruct (as_text (field m "answer")); [|injection Hrun as -> ->; by split].
    destruct (as_integer (field m "category")); [|injection Hrun as -> ->; by split].
    destruct (as_integer (field m "difficulty")); [|injection Hrun as -> ->; by split].
    injection Hrun as -> ->. simpl. split; [set_solver|].
    intros i [= <-]. split; [apply (store_wf_fresh s Hwf)|set_solver].
  - pose proof (delete_question_wf e question_id s Hwf) as Hwf'.
    pose proof (delete_question_run e question_id s) as Hrun.
    destruct (serve (delete_question e question_id) s) as [r w]. simpl in *.
    split; [done|].
    unfold delete_failed in Hrun.
    destruct (e QueryGet); [injection Hrun as -> ->; by split|].
    destruct (head _); [|injection Hrun as -> ->; by split].
    destruct (e SessionDelete); [injection Hrun as -> ->; by split|].
    destruct (e SessionCommit); injection Hrun as -> ->; by split.
Qed.

(** X14: over any sequence of POST /questions and DELETE /questions/<id>
    requests served from a well-formed store, the ids reported as
    [created] are pairwise distinct, and none of them was ever issued
    before the sequence: the id of a deleted question is not used again. *)
Lemma created_ids_fresh (rqs : list write_request) (s : store) :
  store_wf s →
  NoDup (omap created_id (serve_all rqs s).1)
  ∧ ∀ i, i ∈ omap created_id (serve_all rqs s).1 → i ∉ issued s.
Proof.
  revert s. induction rqs as [|rq rqs IH]; intros s Hwf; simpl.
  - split; [constructor|]. intros i Hi. by apply not_elem_of_nil in Hi.
  - destruct (serve_write_step rq s Hwf) as (Hwf1 & Hmono & Hnew).
    destruct (serve_write rq s) as [r s1]. simpl in *.
    destruct (IH s1 Hwf1) as [Hnodup Hfresh].
    destruct (serve_all rqs s1) as [rs s2]. simpl in *.
    destruct (created_id r) as [i|].
    + destruct (Hnew i eq_refl) as [Hi Hi1]. split.
      * constructor; [|done]. intros Hin. by apply Hfresh in Hin.
      * intros j Hj. apply elem_of_cons in Hj as [->|Hj]; [done|].
        apply Hfresh in Hj. intros Hjs. by apply Hj, Hmono.
    + split; [done|]. intros j Hj. apply Hfresh in Hj.
      intros Hjs. by apply Hj, Hmono.
Qed.

(** ** POST /questions/search *)



Fixpoint prefix_ci (term text : string) : bool :=
  match term with
  | EmptyString => true
  | String c term' =>
      match text with
      | EmptyString => false
      | String d text' => Ascii.eqb (lower c) (lower d) && prefix_ci term' text'
      end
  end.

Fixpoint contains_ci (term text : string) : bool :=
  prefix_ci term text
  || match text with
     | EmptyString => false
     | String _ text' => contains_ci term text'
     end.

(** A term without the characters that [ILIKE] reads as pattern syntax. *)
Fixpoint plain (term : string) : bool :=
  match term with
  | EmptyString => true
  | String c r =>
      negb (Ascii.eqb c "\"%char) && negb (Ascii.eqb c "%"%char)
      && negb (Ascii.eqb c "_"%char) && plain r
  end.

Fixpoint literals (term : string) : list like_token :=
  match term with
  | EmptyString => []
  | String c r => Literal c :: literals r
  end.



Lemma like_parse_plain (term rest : string) :
  plain term = true →
  like_parse (term +:+ rest) = (literals term ++.) <$> like_parse rest.
Proof.
  induction term as [|c term IH]; simpl.
  - intros _. change (EmptyString +:+ rest) with rest.
    by destruct (like_parse rest).
  - rewrite !andb_true_iff, !negb_true_iff. intros [[[-> ->] ->] Hp].
    rewrite IH by done. by destruct (like_parse rest).
Qed.

Lemma like_match_skip (tokens : list like_token) (text : string) :
  like_match (AnySequence :: tokens) text
  = like_match tokens text
    || match text with
       | EmptyString => false
       | String _ text' => like_match (AnySequence :: tokens) text'
       end.
Proof. by destruct text. Qed.

Lemma like_match_any (text : string) : like_match [AnySequence] text = true.
Proof.
  induction text as [|d text IH]; [done|].
  rewrite like_match_skip, IH. apply orb_true_r.
Qed.

Lemma like_match_literals (term text : string) :
  like_match (literals term ++ [AnySequence]) text = prefix_ci term text.
Proof.
  revert text. induction term as [|c term IH]; intros text.
  - apply like_match_any.
  - destruct text as [|d text]; [done|]. simpl literals. simpl prefix_ci.
    rewrite <- IH. done.
Qed.

(** For a plain term, [ILIKE '%term%'] is containment without case. *)
Lemma ilike_plain (term text : string) :
  plain term = true →
  like_parse ("%" +:+ term +:+ "%")
    = Some (AnySequence :: literals term ++ [AnySequence])
  ∧ like_match (AnySequence :: literals term ++ [AnySequence]) text
    = contains_ci term text.
Proof.
  intros Hp. split.
  - change ("%" +:+ term +:+ "%") with (String "%" (term +:+ "%")).
    simpl. by rewrite like_parse_plain.
  - induction text as [|d text IH].
    + rewrite like_match_skip, like_match_literals. done.
    + rewrite like_match_skip, like_match_literals, IH. done.
Qed.

Lemma like_parse_cons (c : ascii) (rest : string) :
  like_parse (String c rest) =
    if Ascii.eqb c "\"%char then
      match rest with
      | EmptyString => None
      | String c' rest' => cons (Literal c') <$> like_parse rest'
      end
    else if Ascii.eqb c "%"%char then cons AnySequence <$> like_parse rest
    else if Ascii.eqb c "_"%char then cons AnyOne <$> like_parse rest
    else cons (Literal c) <$> like_parse rest.
Proof. reflexivity. Qed.

(** A pattern of the form [%term%] is always well formed. *)
Lemma like_parse_total (term : string) :
  is_Some (like_parse (term +:+ "%"))
  ∧ ∀ c, is_Some (like_parse (String c term +:+ "%")).
Proof.
  induction term as [|d term [IH1 IH2]].
  - split; [done|]. intros c. simpl.
    destruct (Ascii.eqb c "\"), (Ascii.eqb c "%"), (Ascii.eqb c "_"); done.
  - assert (H : is_Some (like_parse (String d term +:+ "%"))) by apply IH2.
    split; [done|]. intros c.
    change (String c (String d term) +:+ "%")
      with (String c (String d (term +:+ "%"))).
    rewrite like_parse_cons.
    destruct (Ascii.eqb c "\").
    { destruct IH1 as [x ->]. done. }
    change (String d (term +:+ "%")) with (String d term +:+ "%").
    destruct H as [x ->].
    destruct (Ascii.eqb c "%"), (Ascii.eqb c "_"); done.
Qed.

(** What the handler does, path by path. *)
Lemma search_questions_run (container_repr : json → string) (e : env)
    (m : gmap string json) (s : store) :
  (serve (search_questions container_repr e (JObj m)) s).1 =
    if negb (truthy (field m "searchTerm"))
    then mk_response 400 (ErrorBody false 400 "bad request!")
    else if e QueryFilter
    then mk_response 500 (ErrorBody false 500 "internal server error!")
    else
      match like_parse ("%" +:+ py_str container_repr (field m "searchTerm") +:+ "%") with
      | None => mk_response 500 (ErrorBody false 500 "internal server error!")
      | Some tokens =>
          let results :=
            filter (λ q, like_match tokens (Question.question q) = true) (questions s) in
          mk_response 200
            (SearchBody true (Question.format <$> results) (length results) None)
      end.
Proof.
  unfold serve, search_questions, try_except, mbind, M_bind, lift,
    Question_query_ilike, abort, raise, dict_get, field.
  simpl. destruct (negb _); [done|].
  destruct (e QueryFilter); simpl; [done|].
  destruct (like_parse _); simpl; [|done].
  by rewrite length_fmap.
Qed.




(** ** POST /quizzes *)

Lemma mapM_as_integer (ids : list Z) : mapM as_integer (JInt <$> ids) = Some ids.
Proof. apply mapM_Some. induction ids; by constructor. Qed.

(** The eligible set in the words of the specification. *)
Definition spec_eligible (category_id : Z) (previous : list Z) (qs : list Question.t)
  : list Question.t :=
  if decide (category_id = 0) then filter (λ q, Question.id q ∉ previous) qs
  else filter (λ q, Question.category q = category_id ∧ Question.id q ∉ previous) qs.

Definition quiz_response (question : option json) : response :=
  mk_response 200 (QuizBody true question).

(** On a well-shaped body and with a query that does not raise, the answer
    is the eligible question that the draw points at. *)
Lemma play_quiz_run (e : env) (draw : nat) (m cm : gmap string json)
    (c : Z) (previous : list Z) (s : store) :
  m !! "quiz_category" = Some (JObj cm) →
  cm !! "id" = Some (JInt c) →
  m !! "previous_questions" = Some (JList (JInt <$> previous)) →
  e QueryFilter = false →
  (serve (play_quiz e draw (Return (JObj m))) s).1 =
    match spec_eligible c previous (questions s) with
    | [] => quiz_response None
    | q0 :: l =>
        match (q0 :: l) !! draw with
        | Some q => quiz_response (Some (Question.format q))
        | None => mk_response 400 (ErrorBody false 400 "bad request!")
        end
    end.
Proof.
  intros Hcat Hid Hprev He.
  unfold serve, play_quiz, play_quiz_body, try_except, mbind, M_bind, lift,
    Question_query_filter, abort, raise, dict_get, getitem, spec_eligible.
  simpl. rewrite Hcat, Hprev. simpl. rewrite Hid. simpl.
  unfold Question_id_not_in_. rewrite mapM_as_integer.
  destruct (Z.eqb_spec c 0) as [->|Hc]; simpl; rewrite He; simpl.
  - rewrite (list_filter_iff
               (λ q, bool_decide (Question.id q ∉ previous) = true)
               (λ q, Question.id q ∉ previous))
      by (intros q; apply bool_decide_eq_true).
    destruct (filter _ (questions s)) as [|q0 l]; simpl; [done|].
    unfold random_choice. by destruct ((q0 :: l) !! draw).
  - destruct (decide (c = 0)); [done|].
    rewrite (list_filter_iff
               (λ q, bool_decide (Question.category q = c) = true
                     ∧ bool_decide (Question.id q ∉ previous) = true)
               (λ q, Question.category q = c ∧ Question.id q ∉ previous))
      by (intros q; by rewrite !bool_decide_eq_true).
    destruct (filter _ (questions s)) as [|q0 l]; simpl; [done|].
    unfold random_choice. by destruct ((q0 :: l) !! draw).
Qed.

(** C1: on a body with a [quiz_category] holding an id and a list
    [previous_questions] of ids, the eligible questions are all the stored
    ones not yet seen when the id is 0, and else the unseen ones of that
    category; the answer is the eligible question at the index drawn, so
    that the draws below the number of eligible questions give each of
    them exactly once; with no eligible question the answer is 200 with
    [success] true and a null question. *)
Theorem play_quiz_spec (e : env) (draw : nat) (m cm : gmap string json)
    (c : Z) (previous : list Z) (s : store) :
  m !! "quiz_category" = Some (JObj cm) →
  cm !! "id" = Some (JInt c) →
  m !! "previous_questions" = Some (JList (JInt <$> previous)) →
  e QueryFilter = false →
  let eligible := spec_eligible c previous (questions s) in
  let answer := λ k, (serve (play_quiz e k (Return (JObj m))) s).1 in
  (c = 0 → ∀ q, q ∈ eligible ↔ q ∈ questions s ∧ Question.id q ∉ previous)
  ∧ (c ≠ 0 → ∀ q, q ∈ eligible
                  ↔ q ∈ questions s ∧ Question.category q = c
                    ∧ Question.id q ∉ previous)
  ∧ (eligible = [] → answer draw = mk_response 200 (QuizBody true None))
  ∧ (∀ q, eligible !! draw = Some q →
          answer draw = mk_response 200 (QuizBody true (Some (Question.format q))))
  ∧ answer <$> seq 0 (length eligible)
    = (λ q, mk_response 200 (QuizBody true (Some (Question.format q)))) <$> eligible.
Proof.
  intros Hcat Hid Hprev He. cbv zeta.
  assert (Hrun := λ k, play_quiz_run e k m cm c previous s Hcat Hid Hprev He).
  split; [|split; [|split; [|split]]].
  - intros -> q. unfold spec_eligible. rewrite decide_True by done.
    rewrite list_elem_of_filter. tauto.
  - intros Hc q. unfold spec_eligible. rewrite decide_False by done.
    rewrite list_elem_of_filter. tauto.
  - intros Hnil. by rewrite Hrun, Hnil.
  - intros q Hq. rewrite Hrun.
    destruct (spec_eligible c previous (questions s)) as [|q0 l]; [done|].
    by rewrite Hq.
  - apply list_eq. intros k. rewrite !list_lookup_fmap.
    destruct (decide (k < length (spec_eligible c previous (questions s)))%nat)
      as [Hlt|Hge].
    + rewrite lookup_seq_lt by done. simpl.
      destruct (lookup_lt_is_Some_2 _ _ Hlt) as [q Hq]. rewrite Hq. simpl.
      rewrite Hrun.
      destruct (spec_eligible c previous (questions s)) as [|q0 l]; [done|].
      by rewrite Hq.
    + rewrite lookup_seq_ge by lia.
      rewrite (lookup_ge_None_2 (spec_eligible c previous (questions s))) by lia.
      done.
Qed.

Lemma play_quiz_spec_witness :
  (serve (play_quiz healthy 1
            (Return (obj [("quiz_category", obj [("id", JInt 1); ("type", JStr "Science")]);
                          ("previous_questions", JList [JInt 2; JInt 4])])))
         demo_store).1
  = mk_response 200 (QuizBody true (Some (Question.format (demo_question 8)))).
Proof.
  pose proof (play_quiz_spec healthy 1
                (list_to_map [("quiz_category", obj [("id", JInt 1); ("type", JStr "Science")]);
                              ("previous_questions", JList [JInt 2; JInt 4])])
                (list_to_map [("id", JInt 1); ("type", JStr "Science")])
                1 [2; 4] demo_store eq_refl eq_refl eq_refl eq_refl)
    as (_ & _ & _ & H & _).
  exact (H (demo_question 8) eq_refl).
Defined.

Definition bad_request : response :=
  mk_response 400 (ErrorBody false 400 "bad request!").

(** The [except] clause of the handler turns whatever the [try] block
    raises into [abort(400)]. *)
Lemma play_quiz_catches (e : env) (draw : nat) (get_json : outcome json) (s : store) :
  (serve (play_quiz e draw get_json) s).1 =
    match (play_quiz_body e draw get_json (mk_world s [] false [])).1 with
    | Return rv => make_response rv
    | Raise _ => bad_request
    end.
Proof.
  unfold serve, play_quiz, try_except, abort, raise.
  by destruct (play_quiz_body e draw get_json _) as [[rv|ex] w].
Qed.

Ltac quiz_unfold :=
  unfold play_quiz_body, mbind, M_bind, lift, Question_query_filter, abort,
    raise, dict_get, getitem, mret, M_ret; simpl.

Lemma play_quiz_body_returns (e : env) (draw : nat) (get_json : outcome json)
    (w w' : world) (rv : view_result) :
  play_quiz_body e draw get_json w = (Return rv, w') →
  ∃ question, rv = (QuizBody true question, Some 200).
Proof.
  quiz_unfold.
  destruct get_json as [[| | | | |m]|]; simpl; try done.
  destruct (is_none _ || is_none _); simpl; [done|].
  destruct (default JNull (m !! "quiz_category")) as [| | | | |cm]; simpl; try done.
  destruct (cm !! "id") as [cid|]; simpl; [|done].
  destruct (py_eq_int cid 0); simpl.
  - destruct (Question_id_not_in_ _ _); simpl; [|done].
    destruct (e QueryFilter); simpl; [done|].
    destruct (0 <? _)%nat; simpl; [|intros [= <- _]; eauto].
    destruct (random_choice _ _); simpl; [|done]. intros [= <- _]; eauto.
  - destruct (filter_by_category e cid); simpl; [|done].
    destruct (Question_id_not_in_ _ _); simpl; [|done].
    destruct (e QueryFilter); simpl; [done|].
    destruct (0 <? _)%nat; simpl; [|intros [= <- _]; eauto].
    destruct (random_choice _ _); simpl; [|done]. intros [= <- _]; eauto.
Qed.

(** C7 as stated fails: [previous_questions] is present with an empty
    value, the empty list, and the request is answered 200 with a
    question. *)
Lemma play_quiz_empty_previous :
  let body := obj [("quiz_category", obj [("id", JInt 0)]);
                   ("previous_questions", JList [])] in
  dict_get body "previous_questions" = Return (JList [])
  ∧ truthy (JList []) = false
  ∧ (serve (play_quiz healthy 0 (Return body)) demo_store).1
    = mk_response 200 (QuizBody true (Some (Question.format (demo_question 1)))).
Proof. repeat split; reflexivity. Qed.

(** C7, amended: when [quiz_category] or [previous_questions] is absent or
    null the answer is 400; and whatever is raised in the handler is
    answered 400: by [get_json], by a body that is not an object, by a
    [quiz_category] that is not an object or has no [id], by the ORM or
    the database when they reject the value of [previous_questions] or of
    the category id, or by the query. A [previous_questions] that is not a
    list is answered 400 only through such a rejection. The answer is
    never anything but the 400 envelope or a 200 quiz document. *)
Theorem play_quiz_errors (e : env) (draw : nat) (get_json : outcome json) (s : store) :
  let r := (serve (play_quiz e draw get_json) s).1 in
  (∀ m k, get_json = Return (JObj m) →
     k = "quiz_category" ∨ k = "previous_questions" →
     m !! k = None ∨ m !! k = Some JNull → r = bad_request)
  ∧ (∀ ex w', play_quiz_body e draw get_json (mk_world s [] false []) = (Raise ex, w') →
     r = bad_request)
  ∧ (∀ ex, get_json = Raise ex → r = bad_request)
  ∧ (∀ v, get_json = Return v → (∀ m, v ≠ JObj m) → r = bad_request)
  ∧ (∀ m category, get_json = Return (JObj m) →
     m !! "quiz_category" = Some category →
     (∀ cm, category ≠ JObj cm) ∨ (∃ cm, category = JObj cm ∧ cm !! "id" = None) →
     r = bad_request)
  ∧ (∀ m previous ex, get_json = Return (JObj m) →
     m !! "previous_questions" = Some previous →
     Question_id_not_in_ e previous = Raise ex → r = bad_request)
  ∧ (∀ m cm category_id ex, get_json = Return (JObj m) →
     m !! "quiz_category" = Some (JObj cm) →
     cm !! "id" = Some category_id →
     py_eq_int category_id 0 = false →
     filter_by_category e category_id = Raise ex → r = bad_request)
  ∧ (e QueryFilter = true → r = bad_request)
  ∧ (r = bad_request ∨ ∃ question, r = mk_response 200 (QuizBody true question)).
Proof.
  cbv zeta. rewrite play_quiz_catches.
  split; [|split; [|split; [|split; [|split; [|split; [|split; [|split]]]]]]].
  - intros m k -> Hk Hnone. quiz_unfold.
    assert (Hn : is_none (default JNull (m !! "quiz_category"))
                 || is_none (default JNull (m !! "previous_questions")) = true).
    { destruct Hk as [->| ->], Hnone as [->| ->]; simpl;
        by rewrite ?orb_true_r. }
    by rewrite Hn.
  - intros ex w' ->. done.
  - intros ex ->. done.
  - intros v -> Hv. quiz_unfold. destruct v; try done. by destruct (Hv m).
  - intros m category -> Hcat Hshape. quiz_unfold. rewrite Hcat. simpl.
    destruct (is_none category || _); simpl; [done|].
    destruct Hshape as [Hno|(cm & -> & Hid)].
    + destruct category; try done. by destruct (Hno m0).
    + by rewrite Hid.
  - intros m previous ex -> Hprev Hraise. quiz_unfold. rewrite Hprev. simpl.
    destruct (is_none _ || _); simpl; [done|].
    destruct (default JNull (m !! "quiz_category")) as [| | | | |cm]; simpl; try done.
    destruct (cm !! "id") as [cid|]; simpl; [|done].
    destruct (py_eq_int cid 0); simpl; [by rewrite Hraise|].
    destruct (filter_by_category e cid); simpl; [|done]. by rewrite Hraise.
  - intros m cm cid ex -> Hcat Hid Hzero Hraise. quiz_unfold.
    rewrite Hcat. simpl.
    destruct (is_none _); simpl; [done|].
    by rewrite Hid, Hzero, Hraise.
  - intros He.
    destruct (play_quiz_body e draw get_json _) as [[rv|ex] w'] eqn:Hbody; [|done].
    exfalso. revert Hbody. quiz_unfold.
    destruct get_json as [[| | | | |m]|]; simpl; try done.
    destruct (is_none _ || is_none _); simpl; [done|].
    destruct (default JNull (m !! "quiz_category")) as [| | | | |cm]; simpl; try done.
    destruct (cm !! "id") as [cid|]; simpl; [|done].
    rewrite He.
    destruct (py_eq_int cid 0); simpl.
    + by destruct (Question_id_not_in_ _ _).
    + destruct (filter_by_category e cid); simpl; [|done].
      by destruct (Question_id_not_in_ _ _).
  - destruct (play_quiz_body e draw get_json _) as [[rv|ex] w'] eqn:Hbody; simpl.
    + apply play_quiz_body_returns in Hbody as [question ->]. right. eauto.
    + by left.
Qed.

(** An environment whose ORM takes a dict for the collection of its keys,
    and rejects what is not a collection. *)
Definition keys_as_ids : env :=
  mk_env (λ _, false) (λ _, None)
         (λ v, match v with
               | JObj m =>
                   match mapM (λ kv, ascii_int kv.1) (map_to_list m) with
                   | Some ids => Return (λ i, bool_decide (i ∉ ids))
                   | None => Raise StorageError
                   end
               | _ => Raise StorageError
               end)
         (λ _, Raise StorageError).

(** Under such an ORM a [previous_questions] that is an object and not a
    list is answered 200, while a text in its place is answered 400. *)
Example play_quiz_object_as_previous :
  (serve (play_quiz keys_as_ids 0
            (Return (obj [("quiz_category", obj [("id", JInt 0)]);
                          ("previous_questions", obj [("1", JNull)])])))
         demo_store).1
  = mk_response 200 (QuizBody true (Some (Question.format (demo_question 2))))
  ∧ (serve (play_quiz keys_as_ids 0
              (Return (obj [("quiz_category", obj [("id", JInt 0)]);
                            ("previous_questions", JStr "1")])))
           demo_store).1
    = bad_request.
Proof. split; reflexivity. Qed.

Example play_quiz_no_prev_questions :
  (serve (play_quiz healthy 0
            (Return (obj [("quiz_category", obj [("id", JInt 1); ("type", JStr "Science")])])))
         demo_store).1
  = bad_request.
Proof. reflexivity. Qed.

Example play_quiz_no_category :
  (serve (play_quiz healthy 0
            (Return (obj [("previous_questions", JList [JInt 5; JInt 9; JInt 13])])))
         demo_store).1
  = bad_request.
Proof. reflexivity. Qed.

Example play_quiz_category_without_id :
  (serve (play_quiz healthy 0
            (Return (obj [("quiz_category", obj [("type", JStr "Science")]);
                          ("previous_questions", JList [])])))
         demo_store).1
  = bad_request.
Proof. reflexivity. Qed.

(** * The remaining handlers, and how the handlers compose *)

(** ** GET /categories *)

(** The document of [get_categories]: [success] and the mapping. *)
Inductive categories_document :=
| CategoriesBody (success : bool) (categories : gmap Z string).

Definition get_categories (e : env) : M (categories_document * option Z) :=
  categories ← Category_query_all e;
  mret (CategoriesBody true (categories_dict categories), None).

(** [get_categories] served from the store [s]: its document with the
    status (200 when the view gives none), or the response of the error
    dispatch. *)
Definition serve_categories (e : env) (s : store)
  : (Z * categories_document + response) * world :=
  match get_categories e (mk_world s [] false []) with
  | (Return rv, w) => (inl (default 200 rv.2, rv.1), w)
  | (Raise e, w) => (inr (handle_exception e), w)
  end.

(** ** GET /categories/<int:category_id>/questions *)

(** [Category.query.get(category_id)], which the handler calls before its
    [try]. *)
Definition Category_query_get (e : env) (category_id : Z) : M (option Category.t) := λ w,
  if e CategoryGet then (Raise StorageError, touch w)
  else (Return (head (filter (λ c, Category.id c = category_id) (categories (db w)))),
        touch w).

Definition get_questions_by_category (e : env) (category_id : Z) : M view_result :=
  category ← Category_query_get e category_id;
  match category with
  | None => abort 404
  | Some category =>
      try_except
        (questions ← Question_query_filter e (λ q, Question.category q = category_id);
         let formatted_questions := Question.format <$> questions in
         mret (SearchBody true formatted_questions (length formatted_questions)
                 (Some (Category.type category)), Some 200))
        (λ _, abort 500)
  end.

Lemma categories_dict_dom (cs : list Category.t) :
  dom (categories_dict cs) = list_to_set (Category.id <$> cs).
Proof.
  induction cs as [|c cs IH] using rev_ind; [done|].
  rewrite categories_dict_snoc, dom_insert_L, IH, fmap_app, list_to_set_app_L.
  simpl. rewrite (right_id_L ∅ (∪)). apply (comm_L (∪)).
Qed.

Lemma categories_dict_unique (cs : list Category.t) :
  NoDup (Category.id <$> cs) →
  size (categories_dict cs) = length cs
  ∧ ∀ c, c ∈ cs → categories_dict cs !! Category.id c = Some (Category.type c).
Proof.
  induction cs as [|c cs IH] using rev_ind; intros Hnd.
  - split; [done|]. intros c Hc. by apply not_elem_of_nil in Hc.
  - rewrite fmap_app in Hnd. apply NoDup_app in Hnd as (Hnd & Hnew & _).
    destruct (IH Hnd) as [Hsize Hlook].
    assert (Hfresh : categories_dict cs !! Category.id c = None).
    { apply not_elem_of_dom. rewrite categories_dict_dom, elem_of_list_to_set.
      intros Hin. apply (Hnew _ Hin). simpl. apply list_elem_of_here. }
    rewrite categories_dict_snoc. split.
    + rewrite map_size_insert_None by done. rewrite length_app, Hsize. simpl. lia.
    + intros c' Hc'. apply elem_of_app in Hc' as [Hc'|Hc'].
      * rewrite lookup_insert_ne; [by apply Hlook|].
        intros Heq. apply (Hnew (Category.id c')).
        -- apply list_elem_of_fmap. eauto.
        -- rewrite <- Heq. simpl. apply list_elem_of_here.
      * apply list_elem_of_singleton in Hc' as ->. apply lookup_insert_eq.
Qed.

(** X1: when the query of the categories returns, GET /categories answers
    200 with [success] true and a mapping whose keys are exactly the ids
    of the stored categories; when the ids are distinct the mapping has
    one entry for each category, the id mapped to the label. When the
    query raises, which no [try] of the handler catches, the answer is
    500. The store is left as it was in both cases. *)
Theorem get_categories_mapping (e : env) (s : store) :
  (e CategoryAll = false →
     ∃ m, (serve_categories e s).1 = inl (200, CategoriesBody true m)
          ∧ dom m = list_to_set (Category.id <$> categories s)
          ∧ (NoDup (Category.id <$> categories s) →
             size m = length (categories s)
             ∧ ∀ c, c ∈ categories s → m !! Category.id c = Some (Category.type c)))
  ∧ (e CategoryAll = true →
     (serve_categories e s).1
       = inr (mk_response 500 (ErrorBody false 500 "internal server error!")))
  ∧ db (serve_categories e s).2 = s.
Proof.
  unfold serve_categories, get_categories, mbind, M_bind, Category_query_all.
  simpl. split; [|split].
  - intros ->. exists (categories_dict (categories s)).
    split; [done|]. split; [apply categories_dict_dom|].
    apply categories_dict_unique.
  - by intros ->.
  - by destruct (e CategoryAll).
Qed.

Lemma lookup_category_None (cs : list Category.t) (i : Z) :
  (∀ c, c ∈ cs → Category.id c ≠ i) →
  head (filter (λ c, Category.id c = i) cs) = None.
Proof.
  intros Hall. apply head_None.
  destruct (filter _ cs) as [|c l] eqn:E; [done|].
  assert (Hin : c ∈ filter (λ c, Category.id c = i) cs)
    by (rewrite E; apply list_elem_of_here).
  apply list_elem_of_filter in Hin as [Hid Hc]. by destruct (Hall c Hc).
Qed.

(** X2: when the lookup of the category raises, which no [try] of the
    handler catches, GET /categories/<id>/questions answers 500. When it
    returns: the answer is 404 when no category has the id, whatever
    questions refer to it; when one has, and the query does not raise, it
    is 200 with exactly the stored questions of that category in storage
    order, their number, and the label of the category as
    [current_category]; when the query raises it is 500. *)
Theorem get_questions_by_category_spec (e : env) (category_id : Z) (s : store) :
  let r := (serve (get_questions_by_category e category_id) s).1 in
  (e CategoryGet = true →
     r = mk_response 500 (ErrorBody false 500 "internal server error!"))
  ∧ (e CategoryGet = false →
     ((∀ c, c ∈ categories s → Category.id c ≠ category_id) →
        r = mk_response 404 (ErrorBody false 404 "resource not found!"))
     ∧ (∀ c, head (filter (λ c, Category.id c = category_id) (categories s)) = Some c →
        (e QueryFilter = false →
           r = mk_response 200
                 (SearchBody true
                    (Question.format <$>
                       filter (λ q, Question.category q = category_id) (questions s))
                    (length (filter (λ q, Question.category q = category_id)
                                    (questions s)))
                    (Some (Category.type c))))
        ∧ (e QueryFilter = true →
           r = mk_response 500 (ErrorBody false 500 "internal server error!")))).
Proof.
  cbv zeta.
  unfold serve, get_questions_by_category, try_except, mbind, M_bind,
    Category_query_get, Question_query_filter, abort, raise.
  simpl. split; intros ->; simpl; [done|]. split.
  - intros Hno. by rewrite (lookup_category_None _ _ Hno).
  - intros c ->. split; intros ->; simpl; [|done]. by rewrite length_fmap.
Qed.

Example get_questions_by_category_science :
  (serve (get_questions_by_category healthy 1) demo_store).1
  = mk_response 200
      (SearchBody true
         (Question.format <$> (demo_question <$> [2; 4; 6; 8; 10; 12]))
         6 (Some "Science")).
Proof. reflexivity. Qed.

Example get_questions_by_category_outside_range :
  (serve (get_questions_by_category healthy 10000) demo_store).1
  = mk_response 404 (ErrorBody false 404 "resource not found!").
Proof. reflexivity. Qed.

(** ** Pages of GET /questions *)

Lemma concat_windows {A} (l : list A) (n : nat) :
  concat ((λ k, take 10 (drop (10 * k) l)) <$> seq 0 n) = take (10 * n) l.
Proof.
  induction n as [|n IH]; [done|].
  rewrite seq_S, fmap_app, concat_app, IH. simpl. rewrite app_nil_r.
  rewrite take_take_drop. f_equal. lia.
Qed.

(** X3: the pages 1, 2, ..., n of GET /questions, one after the other, are
    the whole formatted question list, as soon as n pages of ten reach the
    end of it: every question is on exactly one page, in storage order. *)
Theorem pages_partition (e : env) (qs : list Question.t) (n : nat)
    (args_of : nat → list (string * string)) :
  (∀ k, (k < n)%nat → args_get_int e (args_of k) "page" 1 = Z.of_nat k + 1) →
  (length qs ≤ 10 * n)%nat →
  concat ((λ k, paginate_questions e (args_of k) qs) <$> seq 0 n)
  = Question.format <$> qs.
Proof.
  intros Hargs Hlen.
  assert (Hpages :
    (λ k, paginate_questions e (args_of k) qs) <$> seq 0 n
    = (λ k, take 10 (drop (10 * k) (Question.format <$> qs))) <$> seq 0 n).
  { apply Forall_fmap_ext, Forall_forall. intros k Hk.
    apply elem_of_seq in Hk.
    rewrite paginate_questions_window by (rewrite Hargs; lia).
    unfold spec_page_window. rewrite Hargs by lia. do 2 f_equal. lia. }
  rewrite Hpages, concat_windows. apply take_ge. rewrite length_fmap. lia.
Qed.

Lemma pages_partition_witness :
  concat ((λ k, paginate_questions healthy
                  (match k with
                   | O => [("page", "1")]
                   | S _ => [("page", "2")]
                   end) (questions demo_store)) <$> seq 0 2)
  = Question.format <$> questions demo_store.
Proof.
  apply (pages_partition healthy (questions demo_store) 2
           (λ k, match k with O => [("page", "1")] | S _ => [("page", "2")] end)).
  - intros k Hk. destruct k as [|[|k]]; [reflexivity|reflexivity|lia].
  - vm_compute. lia.
Defined.

Lemma py_slice_window_length {A} (l : list A) (k : Z) :
  Z.of_nat (length (py_slice l (10 * k) (10 * k + 10)))
  = let len := Z.of_nat (length l) in
    if k <? -1 then Z.max 0 (Z.min 10 (len + 10 * k + 10))
    else if k <? 0 then 0
    else Z.max 0 (Z.min 10 (len - 10 * k)).
Proof.
  unfold py_slice, slice_index. rewrite length_take, length_drop. simpl.
  destruct (Z.ltb_spec k (-1)), (Z.ltb_spec k 0),
    (Z.ltb_spec (10 * k) 0), (Z.ltb_spec (10 * k + 10) 0); lia.
Qed.

(** X4: for every integer page [p] and every store, when the queries of
    the handler return, GET /questions answers 200 exactly when [p >= 1]
    and the store holds more than [10*(p-1)] questions, or [p < 0] and it
    holds more than [-10*p]; in every other case it answers 404. When the
    query of the questions raises, or the page is not empty and the query
    of the categories raises, it answers 500. A page never holds more than
    ten questions. *)
Theorem get_questions_status (e : env) (args : list (string * string)) (s : store) :
  let p := args_get_int e args "page" 1 in
  let len := Z.of_nat (length (questions s)) in
  status_code (serve (get_questions e args) s).1
    = (if e QuestionAll then 500
       else if decide ((1 ≤ p ∧ 10 * (p - 1) < len) ∨ (p < 0 ∧ -10 * p < len))
       then if e CategoryAll then 500 else 200
       else 404)
  ∧ (length (paginate_questions e args (questions s)) ≤ 10)%nat.
Proof.
  cbv zeta. rewrite get_questions_response, paginate_questions_page. cbv zeta.
  pose proof (py_slice_window_length (Question.format <$> questions s)
                (args_get_int e args "page" 1 - 1)) as Hlen.
  rewrite length_fmap in Hlen. cbv zeta in Hlen.
  set (p := args_get_int e args "page" 1) in *.
  set (w := py_slice _ _ _) in *.
  split.
  - destruct (e QuestionAll); [done|].
    destruct (Nat.eqb_spec (length w) 0) as [Hz|Hnz]; simpl.
    + rewrite Hz in Hlen. rewrite decide_False; [done|].
      destruct (Z.ltb_spec (p - 1) (-1)), (Z.ltb_spec (p - 1) 0); lia.
    + rewrite decide_True; [by destruct (e CategoryAll)|].
      destruct (Z.ltb_spec (p - 1) (-1)), (Z.ltb_spec (p - 1) 0); lia.
  - destruct (Z.ltb_spec (p - 1) (-1)), (Z.ltb_spec (p - 1) 0); lia.
Qed.

(** ** A question from its creation to its deletion *)

Lemma filter_none {A} (P : A → Prop) `{!∀ x, Decision (P x)} (l : list A) :
  (∀ x, x ∈ l → ¬ P x) → filter P l = [].
Proof.
  induction l as [|x l IH]; intros Hall; [done|].
  rewrite filter_cons, decide_False by (apply Hall, list_elem_of_here).
  apply IH. intros y Hy. apply Hall. by apply list_elem_of_further.
Qed.

Lemma filter_all {A} (P : A → Prop) `{!∀ x, Decision (P x)} (l : list A) :
  (∀ x, x ∈ l → P x) → filter P l = l.
Proof.
  induction l as [|x l IH]; intros Hall; [done|].
  rewrite filter_cons, decide_True by (apply Hall, list_elem_of_here).
  f_equal. apply IH. intros y Hy. apply Hall. by apply list_elem_of_further.
Qed.

Lemma as_text_Some (v : json) (t : string) : as_text v = Some t → v = JStr t.
Proof. destruct v; simpl; congruence. Qed.

Lemma as_integer_Some (v : json) (n : Z) : as_integer v = Some n → v = JInt n.
Proof. destruct v; simpl; congruence. Qed.

(** What a POST /questions that reports a [created] id has done. *)
Lemma add_question_created (e : env) (m : gmap string json) (s : store) (i : Z) :
  created_id (serve (add_question e (JObj m)) s).1 = Some i →
  ∃ q a c d,
    field m "question" = JStr q ∧ truthy (JStr q) = true
    ∧ field m "answer" = JStr a
    ∧ field m "category" = JInt c ∧ field m "difficulty" = JInt d
    ∧ i = next_id s
    ∧ serve (add_question e (JObj m)) s
      = (mk_response 201 (CreatedBody true i q a c d),
         mk_world (mk_store (questions s ++ [Question.mk i q a c d])
                            (categories s) (i + 1) ({[i]} ∪ issued s))
                  [] false [EvCommit; EvClose]).
Proof.
  rewrite add_question_run. unfold add_failed.
  destruct (truthy (field m "question")) eqn:Tq; simpl; [|done].
  destruct (truthy (field m "answer") && truthy (field m "category")
            && truthy (field m "difficulty")); simpl; [|done].
  destruct (e SessionAdd); [done|]. destruct (e SessionCommit); [done|].
  destruct (as_text (field m "question")) as [q|] eqn:Hq; [|done].
  destruct (as_text (field m "answer")) as [a|] eqn:Ha; [|done].
  destruct (as_integer (field m "category")) as [c|] eqn:Hc; [|done].
  destruct (as_integer (field m "difficulty")) as [d|] eqn:Hd; [|done].
  simpl. intros [= <-].
  apply as_text_Some in Hq, Ha. apply as_integer_Some in Hc, Hd.
  exists q, a, c, d. rewrite Hq in Tq. by rewrite Hq, Ha, Hc, Hd.
Qed.

(** X5: deleting the id that a POST /questions reported as [created]
    answers 200 with that id and brings the question list back to what it
    was before the POST; the categories are untouched. *)
Theorem add_then_delete (e1 e2 : env) (m : gmap string json) (s : store) (i : Z) :
  store_wf s →
  created_id (serve (add_question e1 (JObj m)) s).1 = Some i →
  e2 QueryGet = false → e2 SessionDelete = false → e2 SessionCommit = false →
  let s1 := db (serve (add_question e1 (JObj m)) s).2 in
  (serve (delete_question e2 i) s1).1 = mk_response 200 (DeletedBody true i)
  ∧ questions (db (serve (delete_question e2 i) s1).2) = questions s
  ∧ categories (db (serve (delete_question e2 i) s1).2) = categories s.
Proof.
  intros Hwf Hcreated Hget Hdel Hcommit. cbv zeta.
  apply add_question_created in Hcreated
    as (q & a & c & d & _ & _ & _ & _ & _ & -> & ->).
  destruct (store_wf_fresh s Hwf) as [_ Hrows]. simpl.
  rewrite delete_question_run, Hget, Hdel, Hcommit. simpl.
  rewrite !filter_app.
  rewrite (filter_none (λ x, Question.id x = next_id s) (questions s)) by done.
  rewrite (filter_all (λ x, Question.id x ≠ next_id s) (questions s)) by done.
  rewrite !filter_cons, !filter_nil. simpl.
  rewrite decide_True by done. simpl.
  rewrite decide_False by (intros H; by apply H).
  by rewrite app_nil_r.
Qed.

Lemma add_then_delete_witness :
  questions
    (db (serve (delete_question healthy 13)
           (db (serve (add_question healthy
                  (obj [("question", JStr "What day is Taco Tuesday?");
                        ("answer", JStr "Tuesday"); ("category", JInt 3);
                        ("difficulty", JInt 2)])) demo_store).2)).2)
  = questions demo_store.
Proof.
  exact (proj1 (proj2
    (add_then_delete healthy healthy
       (list_to_map [("question", JStr "What day is Taco Tuesday?");
                     ("answer", JStr "Tuesday"); ("category", JInt 3);
                     ("difficulty", JInt 2)])
       demo_store 13 demo_store_wf eq_refl eq_refl eq_refl eq_refl))).
Defined.

(** X6: once DELETE /questions/<id> has answered 200, the same request
    again is answered 404, whatever the storage session does. *)
Theorem delete_twice (e1 e2 : env) (question_id : Z) (s : store) :
  status_code (serve (delete_question e1 question_id) s).1 = 200 →
  (serve (delete_question e2 question_id)
         (db (serve (delete_question e1 question_id) s).2)).1
  = mk_response 404 (ErrorBody false 404 "resource not found!").
Proof.
  rewrite (delete_question_run e1). unfold delete_failed.
  destruct (e1 QueryGet); [done|].
  destruct (head _); [|done].
  destruct (e1 SessionDelete); [done|]. destruct (e1 SessionCommit); [done|].
  simpl. intros _. rewrite delete_question_run. unfold delete_failed. simpl.
  destruct (e2 QueryGet); [done|].
  rewrite (filter_none (λ q, Question.id q = question_id)); [done|].
  intros q Hq. by apply list_elem_of_filter in Hq as [? _].
Qed.

Lemma delete_twice_witness :
  (serve (delete_question healthy 3)
         (db (serve (delete_question healthy 3) demo_store).2)).1
  = mk_response 404 (ErrorBody false 404 "resource not found!").
Proof. exact (delete_twice healthy healthy 3 demo_store eq_refl). Defined.

Lemma prefix_ci_refl (t : string) : prefix_ci t t = true.
Proof. induction t as [|c t IH]; [done|]. simpl. by rewrite Ascii.eqb_refl. Qed.

Lemma contains_ci_refl (t : string) : contains_ci t t = true.
Proof. destruct t; simpl; [done|]. by rewrite Ascii.eqb_refl, prefix_ci_refl. Qed.

(** X7: after a POST /questions that reported [created], GET /questions
    counts one question more, and the page that follows the full pages of
    the old list answers 200 and ends with the new question; it answers
    500 if one of the two queries of the listing raises. *)
Theorem add_then_list (e e2 : env) (m : gmap string json) (s : store) (i : Z)
    (args : list (string * string)) :
  created_id (serve (add_question e (JObj m)) s).1 = Some i →
  args_get_int e2 args "page" 1 = Z.of_nat (length (questions s)) `div` 10 + 1 →
  let s1 := db (serve (add_question e (JObj m)) s).2 in
  ∃ window row,
    (serve (get_questions e2 args) s1).1
      = (if e2 QuestionAll || e2 CategoryAll
         then mk_response 500 (ErrorBody false 500 "internal server error!")
         else mk_response 200
                (QuestionsBody true window (S (length (questions s))) None
                   (categories_dict (categories s))))
    ∧ last (questions s1) = Some row
    ∧ Question.id row = i
    ∧ JStr (Question.question row) = field m "question"
    ∧ last window = Some (Question.format row).
Proof.
  intros Hcreated Hpage. cbv zeta.
  apply add_question_created in Hcreated
    as (q & a & c & d & Hq & _ & _ & _ & _ & -> & ->).
  simpl. set (row := Question.mk (next_id s) q a c d).
  assert (Hk : ∃ k r, (length (questions s) = 10 * k + r)%nat ∧ (r < 10)%nat
                       ∧ Z.of_nat (length (questions s)) `div` 10 = Z.of_nat k).
  { exists (length (questions s) / 10)%nat, (length (questions s) mod 10)%nat.
    split; [apply Nat.div_mod_eq|]. split; [by apply Nat.mod_upper_bound|].
    by rewrite Nat2Z.inj_div. }
  destruct Hk as (k & r & Hn & Hr & Hdiv). rewrite Hdiv in Hpage.
  assert (Hwin : paginate_questions e2 args (questions s ++ [row])
                 = drop (10 * k) (Question.format <$> questions s ++ [row])).
  { rewrite paginate_questions_window by (rewrite Hpage; lia).
    unfold spec_page_window. rewrite Hpage.
    replace (Z.to_nat (10 * (Z.of_nat k + 1 - 1))) with (10 * k)%nat by lia.
    apply take_ge. rewrite length_drop, length_fmap, length_app.
    cbn [length]. lia. }
  assert (Hlast : last (paginate_questions e2 args (questions s ++ [row]))
                  = Some (Question.format row)).
  { rewrite Hwin, fmap_app. cbn [fmap list_fmap].
    rewrite drop_app_le by (rewrite length_fmap; lia).
    apply last_snoc. }
  exists (paginate_questions e2 args (questions s ++ [row])), row.
  rewrite get_questions_response. cbn [questions categories].
  destruct (paginate_questions e2 args (questions s ++ [row])) as [|x w] eqn:E;
    [done|].
  cbn [length Nat.eqb]. rewrite length_app. cbn [length].
  replace (length (questions s) + 1)%nat with (S (length (questions s))) by lia.
  rewrite last_snoc, Hq.
  by destruct (e2 QuestionAll), (e2 CategoryAll).
Qed.

(** The body of the POST request of the test file. *)
Definition taco_fields : gmap string json :=
  list_to_map [("question", JStr "What day is Taco Tuesday?");
               ("answer", JStr "Tuesday"); ("category", JInt 3);
               ("difficulty", JInt 2)].

Lemma add_then_list_witness :
  ∃ window row,
    (serve (get_questions healthy [("page", "2")])
       (db (serve (add_question healthy (JObj taco_fields)) demo_store).2)).1
      = mk_response 200
          (QuestionsBody true window 13 None (categories_dict (categories demo_store)))
    ∧ Question.id row = 13
    ∧ last window = Some (Question.format row).
Proof.
  destruct (add_then_list healthy healthy taco_fields demo_store 13
              [("page", "2")] eq_refl eq_refl)
    as (window & row & H1 & _ & H2 & _ & H3).
  exists window, row. split; [exact H1|]. split; [exact H2|exact H3].
Defined.

(** X8: after a POST /questions that reported [created], a search for the
    text of the new question, when that text is free of the pattern
    characters and the query does not raise, answers 200 and returns the
    new question. *)
Theorem add_then_search (container_repr : json → string) (e1 e2 : env)
    (m body : gmap string json) (s : store) (i : Z) (t : string) :
  created_id (serve (add_question e1 (JObj m)) s).1 = Some i →
  field m "question" = JStr t →
  plain t = true →
  field body "searchTerm" = JStr t →
  e2 QueryFilter = false →
  let s1 := db (serve (add_question e1 (JObj m)) s).2 in
  ∃ results row,
    (serve (search_questions container_repr e2 (JObj body)) s1).1
      = mk_response 200
          (SearchBody true (Question.format <$> results) (length results) None)
    ∧ row ∈ results ∧ Question.id row = i ∧ Question.question row = t.
Proof.
  intros Hcreated Ht Hplain Hterm He. cbv zeta.
  apply add_question_created in Hcreated
    as (q & a & c & d & Hq & Htruthy & _ & _ & _ & -> & ->).
  rewrite Ht in Hq. injection Hq as <-.
  rewrite search_questions_run, Hterm, Htruthy, He. cbn [negb py_str].
  destruct (ilike_plain t EmptyString Hplain) as [-> _]. cbv zeta.
  eexists _, (Question.mk (next_id s) t a c d).
  split; [reflexivity|]. split; [|done].
  apply list_elem_of_filter. split.
  - cbn [Question.question].
    destruct (ilike_plain t t Hplain) as [_ ->]. apply contains_ci_refl.
  - cbn [questions]. apply elem_of_app. right. apply list_elem_of_here.
Qed.

Definition taco_search : gmap string json :=
  list_to_map [("searchTerm", JStr "What day is Taco Tuesday?")].

Lemma add_then_search_witness :
  ∃ results row,
    (serve (search_questions (λ _, "") healthy (JObj taco_search))
       (db (serve (add_question healthy (JObj taco_fields)) demo_store).2)).1
      = mk_response 200
          (SearchBody true (Question.format <$> results) (length results) None)
    ∧ row ∈ results ∧ Question.id row = 13.
Proof.
  destruct (add_then_search (λ _, "") healthy healthy taco_fields taco_search
              demo_store 13 "What day is Taco Tuesday?"
              eq_refl eq_refl eq_refl eq_refl eq_refl)
    as (results & row & H1 & H2 & H3 & _).
  exists results, row. split; [exact H1|]. split; [exact H2|exact H3].
Defined.

(** ** A quiz played round after round *)

(** The body a client sends for a quiz on category [c] (0 for all) after
    the questions [previous]. *)
Definition quiz_request (c : Z) (previous : list Z) : json :=
  obj [("quiz_category", obj [("id", JInt c)]);
       ("previous_questions", JList (JInt <$> previous))].

(** The [id] of the question in a quiz answer, if it holds one. *)
Definition answered_id (r : response) : option Z :=
  match data r with
  | QuizBody _ (Some (JObj f)) =>
      match f !! "id" with
      | Some (JInt i) => Some i
      | _ => None
      end
  | _ => None
  end.

(** One request for each draw; the id of each answer joins the previous
    questions of the next request; the session ends with the first answer
    that holds no question. *)
Fixpoint quiz_session (e : env) (draws : list nat) (c : Z) (previous : list Z)
    (s : store) : list Z :=
  match draws with
  | [] => []
  | draw :: draws' =>
      match answered_id (serve (play_quiz e draw (Return (quiz_request c previous))) s).1 with
      | Some i => i :: quiz_session e draws' c (previous ++ [i]) s
      | None => []
      end
  end.

Lemma play_quiz_query_raises (e : env) (draw : nat) (m cm : gmap string json)
    (c : Z) (previous : list Z) (s : store) :
  m !! "quiz_category" = Some (JObj cm) →
  cm !! "id" = Some (JInt c) →
  m !! "previous_questions" = Some (JList (JInt <$> previous)) →
  e QueryFilter = true →
  (serve (play_quiz e draw (Return (JObj m))) s).1 = bad_request.
Proof.
  intros Hcat Hid Hprev He.
  unfold serve, play_quiz, play_quiz_body, try_except, mbind, M_bind, lift,
    Question_query_filter, abort, raise, dict_get, getitem.
  simpl. rewrite Hcat, Hprev. simpl. rewrite Hid. simpl.
  unfold Question_id_not_in_. rewrite mapM_as_integer.
  destruct (c =? 0); simpl; by rewrite He.
Qed.

Lemma answered_id_format (q : Question.t) :
  answered_id (quiz_response (Some (Question.format q))) = Some (Question.id q).
Proof. reflexivity. Qed.

Lemma spec_eligible_elem (c : Z) (previous : list Z) (qs : list Question.t)
    (q : Question.t) :
  q ∈ spec_eligible c previous qs →
  q ∈ qs ∧ (Question.id q ∉ previous) ∧ (c ≠ 0 → Question.category q = c).
Proof.
  unfold spec_eligible. destruct (decide (c = 0)) as [->|Hc]; intros Hq;
    apply list_elem_of_filter in Hq; tauto.
Qed.

(** The question of a quiz answer is an eligible one. *)
Lemma quiz_answer_eligible (e : env) (draw : nat) (c : Z) (previous : list Z)
    (s : store) (i : Z) :
  answered_id (serve (play_quiz e draw (Return (quiz_request c previous))) s).1 = Some i →
  ∃ q, q ∈ spec_eligible c previous (questions s) ∧ Question.id q = i.
Proof.
  set (cm := list_to_map [("id", JInt c)] : gmap string json).
  set (m := list_to_map [("quiz_category", JObj cm);
                         ("previous_questions", JList (JInt <$> previous))]
            : gmap string json).
  change (quiz_request c previous) with (JObj m).
  destruct (e QueryFilter) eqn:He.
  - by rewrite (play_quiz_query_raises e draw m cm c previous s).
  - rewrite (play_quiz_run e draw m cm c previous s) by done.
    destruct (spec_eligible c previous (questions s)) as [|q0 l] eqn:E; [done|].
    destruct ((q0 :: l) !! draw) as [q|] eqn:Hq; [|done].
    rewrite answered_id_format. intros [= <-]. exists q. split; [|done].
    by apply list_elem_of_lookup_2 in Hq.
Qed.

(** X9: in a quiz whose client adds the id of every answer to
    [previous_questions], no question is asked twice, no question asked
    had been seen before the session, every question asked is a stored one
    of the category chosen, and there are at most as many rounds with a
    question as there were eligible questions at the start. *)
Theorem quiz_session_no_repeat (e : env) (draws : list nat) (c : Z)
    (previous : list Z) (s : store) :
  NoDup (quiz_session e draws c previous s)
  ∧ (∀ i, i ∈ quiz_session e draws c previous s →
       (i ∉ previous)
       ∧ ∃ q, q ∈ questions s ∧ Question.id q = i
              ∧ (c ≠ 0 → Question.category q = c))
  ∧ (length (quiz_session e draws c previous s)
     ≤ length (spec_eligible c previous (questions s)))%nat.
Proof.
  assert (Hmain : ∀ draws previous,
    NoDup (quiz_session e draws c previous s)
    ∧ ∀ i, i ∈ quiz_session e draws c previous s →
           ∃ q, q ∈ spec_eligible c previous (questions s) ∧ Question.id q = i).
  { clear draws previous.
    induction draws as [|draw draws IH]; intros previous; simpl.
    - split; [constructor|]. intros i Hi. by apply not_elem_of_nil in Hi.
    - destruct (answered_id _) as [i|] eqn:Hans.
      + destruct (IH (previous ++ [i])) as [Hnd Hin].
        apply quiz_answer_eligible in Hans as (q & Hq & Hid).
        split.
        * constructor; [|done]. intros Hi. apply Hin in Hi as (q' & Hq' & Hid').
          apply spec_eligible_elem in Hq' as (_ & Hnot & _).
          apply Hnot. rewrite Hid'. apply elem_of_app. right.
          apply list_elem_of_here.
        * intros j Hj. apply elem_of_cons in Hj as [->|Hj]; [eauto|].
          apply Hin in Hj as (q' & Hq' & Hid'). exists q'. split; [|done].
          apply spec_eligible_elem in Hq' as (Hin' & Hnot & Hcat).
          unfold spec_eligible.
          destruct (decide (c = 0)); apply list_elem_of_filter;
            (split; [|done]); [|split; [by apply Hcat|]];
            intros Hp; apply Hnot, elem_of_app; by left.
      + split; [constructor|]. intros i Hi. by apply not_elem_of_nil in Hi. }
  destruct (Hmain draws previous) as [Hnd Hin].
  split; [done|]. split.
  - intros i Hi. apply Hin in Hi as (q & Hq & Hid).
    apply spec_eligible_elem in Hq as (? & ? & ?). rewrite <- Hid. eauto.
  - rewrite <- (length_fmap Question.id (spec_eligible c previous (questions s))).
    apply submseteq_length, NoDup_submseteq; [done|].
    intros i Hi. apply Hin in Hi as (q & Hq & <-).
    apply list_elem_of_fmap. eauto.
Qed.

Example quiz_session_science :
  quiz_session healthy [0; 0; 1; 0; 0; 0; 0; 0]%nat 1 [2; 4] demo_store
  = [6; 8; 12; 10].
Proof. reflexivity. Qed.

(** ** What the handlers leave alone *)

(** A computation that changes neither the store nor the pending changes
    of the session. *)
Definition reads_only {A} (m : M A) : Prop :=
  ∀ w, db (m w).2 = db w ∧ pending (m w).2 = pending w.

Section ReadsOnly.
Context {A B : Type}.

Lemma reads_only_ret (a : A) : reads_only (mret a : M A).
Proof. by intros w. Qed.

Lemma reads_only_raise (e : exn) : reads_only (raise e : M A).
Proof. by intros w. Qed.

Lemma reads_only_lift (o : outcome A) : reads_only (lift o).
Proof. by intros w. Qed.

Lemma reads_only_bind (m : M A) (f : A → M B) :
  reads_only m → (∀ a, reads_only (f a)) → reads_only (m ≫= f).
Proof.
  intros Hm Hf w. unfold mbind, M_bind.
  destruct (Hm w) as [Hdb Hpending].
  destruct (m w) as [[a|e] w1]; simpl in *; [|done].
  destruct (Hf a w1) as [Hdb' Hpending']. by rewrite Hdb', Hpending'.
Qed.

Lemma reads_only_try_except (m : M A) (h : exn → M A) :
  reads_only m → (∀ e, reads_only (h e)) → reads_only (try_except m h).
Proof.
  intros Hm Hh w. unfold try_except.
  destruct (Hm w) as [Hdb Hpending].
  destruct (m w) as [[a|e] w1]; simpl in *; [done|].
  destruct (Hh e w1) as [Hdb' Hpending']. by rewrite Hdb', Hpending'.
Qed.
End ReadsOnly.

Lemma reads_only_question_all (e : env) : reads_only (Question_query_all e).
Proof. intros w. unfold Question_query_all. by destruct (e QuestionAll). Qed.

Lemma reads_only_category_all (e : env) : reads_only (Category_query_all e).
Proof. intros w. unfold Category_query_all. by destruct (e CategoryAll). Qed.

Lemma reads_only_category_get (e : env) (i : Z) :
  reads_only (Category_query_get e i).
Proof. intros w. unfold Category_query_get. by destruct (e CategoryGet). Qed.

Lemma reads_only_ilike (e : env) (pattern : string) :
  reads_only (Question_query_ilike e pattern).
Proof.
  intros w. unfold Question_query_ilike.
  by destruct (e QueryFilter), (like_parse pattern).
Qed.

Lemma reads_only_filter (e : env) (P : Question.t → Prop) `{!∀ q, Decision (P q)} :
  reads_only (Question_query_filter e P).
Proof. intros w. unfold Question_query_filter. by destruct (e QueryFilter). Qed.

Ltac reads_only_step :=
  first
    [ apply reads_only_bind; [|intros ?]
    | apply reads_only_try_except; [|intros ?]
    | apply reads_only_ret
    | apply reads_only_raise
    | apply reads_only_lift
    | apply reads_only_question_all
    | apply reads_only_category_all
    | apply reads_only_category_get
    | apply reads_only_ilike
    | apply reads_only_filter
    | case_match ].

Lemma reads_only_get_questions (e : env) (args : list (string * string)) :
  reads_only (get_questions e args).
Proof. unfold get_questions, abort. repeat reads_only_step. Qed.

Lemma reads_only_get_categories (e : env) : reads_only (get_categories e).
Proof. unfold get_categories. repeat reads_only_step. Qed.

Lemma reads_only_by_category (e : env) (i : Z) :
  reads_only (get_questions_by_category e i).
Proof. unfold get_questions_by_category, abort. repeat reads_only_step. Qed.

Lemma reads_only_search (container_repr : json → string) (e : env) (body : json) :
  reads_only (search_questions container_repr e body).
Proof. unfold search_questions, abort. repeat reads_only_step. Qed.

Lemma reads_only_play_quiz (e : env) (draw : nat) (get_json : outcome json) :
  reads_only (play_quiz e draw get_json).
Proof. unfold play_quiz, play_quiz_body, abort. repeat reads_only_step. Qed.

Lemma serve_reads_only (view : M view_result) (s : store) :
  reads_only view → db (serve view s).2 = s ∧ pending (serve view s).2 = [].
Proof.
  intros Hview. unfold serve.
  destruct (Hview (mk_world s [] false [])) as [Hdb Hpending].
  by destruct (view _) as [[rv|e] w].
Qed.

(** X10: the handlers that only read (the two listings, the category
    listing, the search and the quiz) never change the store and leave no
    pending change in the session, whatever the request holds and whether
    or not a query raises. *)
Theorem readers_never_write (container_repr : json → string) (e : env)
    (args : list (string * string)) (category_id : Z) (body : json)
    (draw : nat) (get_json : outcome json) (s : store) :
  (db (serve (get_questions e args) s).2 = s
   ∧ pending (serve (get_questions e args) s).2 = [])
  ∧ db (serve_categories e s).2 = s
  ∧ (db (serve (get_questions_by_category e category_id) s).2 = s
     ∧ pending (serve (get_questions_by_category e category_id) s).2 = [])
  ∧ (db (serve (search_questions container_repr e body) s).2 = s
     ∧ pending (serve (search_questions container_repr e body) s).2 = [])
  ∧ (db (serve (play_quiz e draw get_json) s).2 = s
     ∧ pending (serve (play_quiz e draw get_json) s).2 = []).
Proof.
  split; [apply serve_reads_only, reads_only_get_questions|].
  split.
  { unfold serve_categories.
    destruct (reads_only_get_categories e (mk_world s [] false [])) as [Hdb _].
    by destruct (get_categories e _) as [[rv|ex] w]. }
  split; [apply serve_reads_only, reads_only_by_category|].
  split; [apply serve_reads_only, reads_only_search|].
  apply serve_reads_only, reads_only_play_quiz.
Qed.

(** X11: DELETE /questions/<id> never touches the categories, the id
    generator or a question with another id, and never adds a question;
    POST /questions never touches the categories and never changes or
    removes a stored question: the old questions stay in place and at
    most one is appended. This holds on every path, errors included. *)
Theorem writers_frame (e : env) (question_id : Z) (body : json) (s : store) :
  (let s' := db (serve (delete_question e question_id) s).2 in
   categories s' = categories s
   ∧ next_id s' = next_id s
   ∧ questions s' `sublist_of` questions s
   ∧ ∀ q, Question.id q ≠ question_id → q ∈ questions s → q ∈ questions s')
  ∧ (let s' := db (serve (add_question e body) s).2 in
     categories s' = categories s
     ∧ questions s `prefix_of` questions s'
     ∧ (length (questions s') ≤ S (length (questions s)))%nat).
Proof.
  split; cbv zeta.
  - rewrite delete_question_run. unfold delete_failed.
    destruct (e QueryGet); [done|]. destruct (head _); [|done].
    destruct (e SessionDelete); [done|]. destruct (e SessionCommit); [done|].
    simpl. split; [done|]. split; [done|]. split; [apply sublist_filter|].
    intros q Hid Hq. by apply list_elem_of_filter.
  - assert (Hsame : categories s = categories s
              ∧ questions s `prefix_of` questions s
              ∧ (length (questions s) ≤ S (length (questions s)))%nat).
    { split; [done|]. split; [by exists []; rewrite app_nil_r|lia]. }
    destruct body as [| | | | |m]; try exact Hsame.
    rewrite add_question_run. unfold add_failed.
    destruct (negb _); [exact Hsame|].
    destruct (e SessionAdd); [exact Hsame|].
    destruct (e SessionCommit); [exact Hsame|].
    destruct (as_text (field m "question")); [|exact Hsame].
    destruct (as_text (field m "answer")); [|exact Hsame].
    destruct (as_integer (field m "category")); [|exact Hsame].
    destruct (as_integer (field m "difficulty")); [|exact Hsame].
    simpl. split; [done|]. split; [by eexists|].
    rewrite length_app. simpl. lia.
Qed.

(** ** Bodies that are not objects *)

(** X12: when the JSON body is not an object, POST /questions and
    POST /questions/search answer 500, since [body.get] raises outside of
    their [try], while POST /quizzes answers 400, since its [try] covers
    the whole handler; nothing is stored in either case. *)
Theorem non_object_body (container_repr : json → string) (e : env) (draw : nat)
    (body : json) (s : store) :
  (∀ m, body ≠ JObj m) →
  serve (add_question e body) s
    = (mk_response 500 (ErrorBody false 500 "internal server error!"),
       mk_world s [] false [])
  ∧ serve (search_questions container_repr e body) s
    = (mk_response 500 (ErrorBody false 500 "internal server error!"),
       mk_world s [] false [])
  ∧ serve (play_quiz e draw (Return body)) s
    = (mk_response 400 (ErrorBody false 400 "bad request!"),
       mk_world s [] false []).
Proof.
  intros Hshape. destruct body as [| | | | |m]; try done. by destruct (Hshape m).
Qed.

Lemma non_object_body_witness :
  serve (add_question healthy (JList [JStr "question"])) demo_store
  = (mk_response 500 (ErrorBody false 500 "internal server error!"),
     mk_world demo_store [] false []).
Proof.
  apply (non_object_body (λ _, "") healthy 0 (JList [JStr "question"]) demo_store).
  intros m. discriminate.
Defined.

(** ** Search results *)

(** X13: for a truthy search term, POST /questions/search answers 500 when
    the query raises, and otherwise 200 with questions that are stored
    ones, in storage order and without repetition of a row, counted by
    [total_questions]; a pattern built from a term is never rejected, so
    no other answer occurs. *)
Theorem search_outcomes (container_repr : json → string) (e : env)
    (m : gmap string json) (s : store) :
  truthy (field m "searchTerm") = true →
  let r := (serve (search_questions container_repr e (JObj m)) s).1 in
  (e QueryFilter = true →
     r = mk_response 500 (ErrorBody false 500 "internal server error!"))
  ∧ (e QueryFilter = false →
     ∃ results,
       r = mk_response 200
             (SearchBody true (Question.format <$> results) (length results) None)
       ∧ results `sublist_of` questions s).
Proof.
  intros Htruthy. cbv zeta. rewrite search_questions_run, Htruthy. cbn [negb].
  split; intros ->; [done|].
  destruct (like_parse_total (py_str container_repr (field m "searchTerm")))
    as [_ Htotal].
  destruct (Htotal "%"%char) as [tokens Htok].
  change (String "%" (py_str container_repr (field m "searchTerm")) +:+ "%")
    with ("%" +:+ py_str container_repr (field m "searchTerm") +:+ "%") in Htok.
  rewrite Htok. cbv zeta. eexists. split; [reflexivity|apply sublist_filter].
Qed.

Lemma search_outcomes_witness :
  (serve (search_questions (λ _, "") healthy (JObj taco_search)) demo_store).1
  = mk_response 200 (SearchBody true [] 0 None).
Proof.
  destruct (search_outcomes (λ _, "") healthy taco_search demo_store eq_refl)
    as [_ H].
  destruct (H eq_refl) as (results & Hr & _).
  rewrite Hr. vm_compute in Hr. injection Hr as Hr _.
  destruct results; [reflexivity|discriminate].
Defined.

(** A sequence of writing requests for the examples. *)
Definition demo_requests : list write_request :=
  [PostQuestion healthy taco_fields; DeleteQuestion healthy 13;
   PostQuestion healthy taco_fields; PostQuestion commit_raises taco_fields;
   PostQuestion healthy taco_fields].

Lemma created_ids_fresh_witness :
  NoDup (omap created_id (serve_all demo_requests demo_store).1)
  ∧ omap created_id (serve_all demo_requests demo_store).1 = [13; 14; 15].
Proof.
  split; [|reflexivity].
  exact (proj1 (created_ids_fresh demo_requests demo_store demo_store_wf)).
Defined.

(** ** The statuses of each route *)




(** ** The quiz and the category listing *)

(** X16: for a category id other than 0, a quiz with no previous question
    draws from exactly the list that GET /categories/<id>/questions
    returns: the question at position [k] of that list is the quiz answer
    for the draw [k]. *)
Theorem quiz_draws_from_category_listing (e : env) (c : Z) (s : store)
    (listing : list json) (n : nat) (label : option string) (k : nat) (j : json) :
  c ≠ 0 →
  e QueryFilter = false →
  (serve (get_questions_by_category e c) s).1
    = mk_response 200 (SearchBody true listing n label) →
  listing !! k = Some j →
  (serve (play_quiz e k (Return (quiz_request c []))) s).1
    = mk_response 200 (QuizBody true (Some j)).
Proof.
  intros Hc He Hlist Hk.
  assert (Hl : listing
               = Question.format <$> filter (λ q, Question.category q = c) (questions s)).
  { revert Hlist.
    unfold serve, get_questions_by_category, try_except, mbind, M_bind,
      Category_query_get, Question_query_filter, abort, raise. simpl.
    destruct (e CategoryGet); simpl; [done|].
    destruct (head _); [|done]. rewrite He. simpl. by intros [= <- _ _]. }
  set (cm := list_to_map [("id", JInt c)] : gmap string json).
  set (m := list_to_map [("quiz_category", JObj cm);
                         ("previous_questions", JList (JInt <$> []))]
            : gmap string json).
  change (quiz_request c []) with (JObj m).
  rewrite (play_quiz_run e k m cm c [] s) by done.
  unfold spec_eligible. rewrite decide_False by done.
  rewrite (list_filter_iff
             (λ q, Question.category q = c ∧ Question.id q ∉ [])
             (λ q, Question.category q = c))
    by (intros q; split; [tauto|]; intros ?; split; [done|apply not_elem_of_nil]).
  rewrite Hl, list_lookup_fmap in Hk.
  destruct (filter _ (questions s)) as [|q0 l]; [done|].
  destruct ((q0 :: l) !! k) as [q|]; [|done].
  simpl in Hk. by injection Hk as <-.
Qed.

Lemma quiz_draws_from_category_listing_witness :
  (serve (play_quiz healthy 2 (Return (quiz_request 1 []))) demo_store).1
  = mk_response 200 (QuizBody true (Some (Question.format (demo_question 6)))).
Proof.
  apply (quiz_draws_from_category_listing healthy 1 demo_store
           (Question.format <$> (demo_question <$> [2; 4; 6; 8; 10; 12]))
           6 (Some "Science") 2 (Question.format (demo_question 6)));
    [discriminate | reflexivity | reflexivity | reflexivity].
Defined.
